(** * Vouch interceptor: a shallow embedding of the proxy's request and
    response hooks, its policy scan, its redaction and its control API.

    The embedded program is the proxy's [main] package: [interceptRequest],
    [extractTaskMetadata], [evaluatePolicy], [shouldStallMethod],
    [handleStall], [submitToolCallEvent], [redactParams],
    [interceptResponse], [sendErrorResponse], [handleRekey],
    [handleApprove] and [handleReject].

    State is passed explicitly.  A goroutine that parks on its approval
    channel is cut in two at the receive: the part before it returns a
    [Parked] record, the part after it is a separate function that takes
    the record back.  A run of the process is a sequence of steps of its
    goroutines: a step is a segment of a handler between two suspension
    points, run as a whole, or one of the accesses to the shared state
    that the segments consist of, so that runs also interleave the
    accesses of several goroutines.

    The command line tools, [VerifyCommand] of the [commands] package and
    the commands of [cmd/ael-cli], are embedded in [Cli] as functions
    from the outcomes of their calls to the store, the signer and the
    verifier to what they print and how they end. *)

From stdpp Require Import gmap strings list fin_maps.
From Stdlib Require Import ZArith Ascii String.

Set Warnings "-register-all".
Local Open Scope string_scope.
Local Open Scope Z_scope.

(** ** JSON values, as [encoding/json] decodes them into [interface{}] *)

Module Json.

(** Numbers are kept as integers: no claim looks inside a number. *)
Inductive JValue : Type :=
| JNull
| JBool (b : bool)
| JNumber (n : Z)
| JString (s : string)
| JArray (xs : list JValue)
| JObject (fields : list (string * JValue)).

(** The type assertion [v.(string)] on the result of a map index. *)
Definition asString (v : option JValue) : option string :=
  match v with
  | Some (JString s) => Some s
  | _ => None
  end.

(** Indexing a [map[string]interface{}] that may be nil. *)
Definition index (m : option (gmap string JValue)) (k : string) : option JValue :=
  match m with
  | Some kv => kv !! k
  | None => None
  end.

End Json.
Export Json.

Abbreviation JMap := (gmap string JValue).

(** [len] of a Go string or byte slice. *)
Definition len (s : string) : Z := Z.of_nat (String.length s).

(** ** The [proxy] package's data, as the interceptor uses it *)

(** One [key op value] predicate of a rule. *)
Record Condition := mkCondition {
  CondKey : string;
  CondOp : string;
  CondValue : JValue;
}.

Record PolicyRule := mkPolicyRule {
  ID : string;
  MatchMethods : list string;
  Action : string;
  RiskLevel : string;
  Redact : list string;
  Conditions : option (list Condition);
}.

Record PolicyConfig := mkPolicyConfig {
  Version : string;
  Policies : list PolicyRule;
}.

Record Event := mkEvent {
  EvID : string;
  Timestamp : Z;
  EventType : string;
  EvMethod : string;
  Params : option JMap;
  Response : option JMap;
  TaskID : string;
  TaskState : string;
  ParentID : string;
  PolicyID : string;
  EvRiskLevel : string;
  WasBlocked : bool;
}.

(** ** JSON-RPC messages *)

Record MCPRequest := mkMCPRequest {
  ReqJSONRPC : string;
  ReqID : JValue;
  Method : string;
  ReqParams : option JMap;
}.

Record MCPResponse := mkMCPResponse {
  RespJSONRPC : string;
  RespID : JValue;
  Result : option JMap;
  Error : option JMap;
}.

(** ** HTTP messages *)

(** A body is a reader: the bytes it yields and the error, if any, that
    ends the read. *)
Record BodyReader := mkBody {
  data : string;
  readErr : option string;
}.

Definition ReadAll (b : BodyReader) : string * option string :=
  (data b, readErr b).

(** [io.NopCloser(bytes.NewBuffer(bodyBytes))] *)
Definition NopCloser (bodyBytes : string) : BodyReader :=
  {| data := bodyBytes; readErr := None |}.

(** What is left of a reader after a failed [ReadAll]. *)
Definition drained (b : BodyReader) : BodyReader :=
  {| data := ""; readErr := readErr b |}.

Record Request := mkRequest {
  HttpMethod : string;
  Path : string;
  Body : BodyReader;
}.

Record HttpResponse := mkHttpResponse {
  StatusCode : Z;
  RespBody : BodyReader;
}.

Definition withBody (r : Request) (b : BodyReader) : Request :=
  {| HttpMethod := HttpMethod r; Path := Path r; Body := b |}.

Definition withRespBody (r : HttpResponse) (b : BodyReader) : HttpResponse :=
  {| StatusCode := StatusCode r; RespBody := b |}.

(** What a control-API handler writes to its [http.ResponseWriter]. *)
Record Written := mkWritten {
  status : Z;
  text : string;
}.

Definition StatusOK : Z := 200.
Definition StatusBadRequest : Z := 400.
Definition StatusForbidden : Z := 403.
Definition StatusNotFound : Z := 404.
Definition StatusConflict : Z := 409.
Definition StatusInternalServerError : Z := 500.
Definition StatusBadGateway : Z := 502.
Definition StatusServiceUnavailable : Z := 503.

Definition nl : string := String (ascii_of_nat 10) EmptyString.

(** [http.Error(w, msg, code)] *)
Definition httpError (msg : string) (code : Z) : Written :=
  {| status := code; text := msg ++ nl |}.

(** ** Results and assertions *)

Inductive Fallible (A : Type) : Type :=
| Ok (a : A)
| Err (e : string).
Arguments Ok {A} a.
Arguments Err {A} e.

(** Modelled from the spec: [internal/assert] is not among the sources.
    [assert.Check(cond, msg, ...)] yields an error when [cond] is false and
    nil otherwise; the error is represented by the message of the call. *)
Definition Check (cond : bool) (msg : string) : option string :=
  if cond then None else Some msg.

Notation "'guard!' c 'or' msg ; k" :=
  (match Check c msg with Some e => Err e | None => k end)
  (at level 10, c at level 0, msg at level 0, k at level 200).

(** ** What the interceptor takes from outside its own package *)

Class World := {
  (** [json.Unmarshal(body, &mcpReq)] *)
  UnmarshalRequest : string -> Fallible MCPRequest;
  (** [json.Unmarshal(bodyBytes, &mcpResp)] *)
  UnmarshalResponse : string -> Fallible MCPResponse;
  (** [proxy.MatchPattern(pattern, method)] *)
  MatchPattern : string -> string -> bool;
  (** [proxy.CheckConditions(rule.Conditions, params)] *)
  CheckConditions : list Condition -> option JMap -> bool;
  (** [uuid.New().String()[:8]] at the n-th event the process builds *)
  uuid8 : nat -> string;
  (** [time.Now()] at the n-th event the process builds *)
  now : nat -> Z;
}.

(** ** Log lines *)

Inductive LogEntry :=
| LogReadFailed (err : string)
| LogStall (method policyID eventID : string)
| LogWaiting (eventID : string)
| LogSecurity (message : string) (json : MCPResponse)
| LogDroppingResponse
| LogKeyRotation (oldPubKey newPubKey : string)
| LogApproved (eventID : string)
| LogRejected (eventID : string).

(** ** The ledger worker, seen from the interceptor *)

(** Modelled from the spec: [ledger.Worker] is not among the sources.
    [IsHealthy] reads a flag and [Submit] hands an event to the worker's
    queue; [submitted] lists the events handed over, oldest first. *)
Record Worker := mkWorker {
  IsHealthy : bool;
  submitted : list Event;
}.

Definition Submit (w : Worker) (e : Event) : Worker :=
  {| IsHealthy := IsHealthy w; submitted := submitted w ++ [e] |}.

(** ** Channels *)

(** What the goroutine that receives from a channel is doing: it is not
    in the receive, it is parked in the receive, or a sender has handed it
    a value and it has not run since. *)
Inductive Receiver :=
| Away
| Waiting
| Handed (b : bool).

(** A [chan bool] of capacity one, with its one receiver. *)
Record Chan := mkChan {
  buffer : option bool;
  receiver : Receiver;
}.

(** ** The proxy and the process around it *)

(** The first five fields are those of the Go struct (the reverse proxy
    itself is left out).  [stallSignals] maps an event id to a channel
    reference; [chans] is the heap of channels.  [draws] counts the events
    built so far and [logs] is the log output. *)
Record VouchProxy := mkVouchProxy {
  worker : Worker;
  activeTasks : gmap string string;
  policy : option PolicyConfig;
  stallSignals : gmap string nat;
  lastEventByTask : gmap string string;
  chans : list Chan;
  draws : nat;
  logs : list LogEntry;
}.

Definition setWorker (w : Worker) (v : VouchProxy) : VouchProxy :=
  {| worker := w; activeTasks := activeTasks v; policy := policy v;
     stallSignals := stallSignals v; lastEventByTask := lastEventByTask v;
     chans := chans v; draws := draws v; logs := logs v |}.

Definition setActiveTasks (m : gmap string string) (v : VouchProxy) : VouchProxy :=
  {| worker := worker v; activeTasks := m; policy := policy v;
     stallSignals := stallSignals v; lastEventByTask := lastEventByTask v;
     chans := chans v; draws := draws v; logs := logs v |}.

Definition setStallSignals (m : gmap string nat) (v : VouchProxy) : VouchProxy :=
  {| worker := worker v; activeTasks := activeTasks v; policy := policy v;
     stallSignals := m; lastEventByTask := lastEventByTask v;
     chans := chans v; draws := draws v; logs := logs v |}.

Definition setLastEventByTask (m : gmap string string) (v : VouchProxy) : VouchProxy :=
  {| worker := worker v; activeTasks := activeTasks v; policy := policy v;
     stallSignals := stallSignals v; lastEventByTask := m;
     chans := chans v; draws := draws v; logs := logs v |}.

Definition setChans (c : list Chan) (v : VouchProxy) : VouchProxy :=
  {| worker := worker v; activeTasks := activeTasks v; policy := policy v;
     stallSignals := stallSignals v; lastEventByTask := lastEventByTask v;
     chans := c; draws := draws v; logs := logs v |}.

Definition setDraws (n : nat) (v : VouchProxy) : VouchProxy :=
  {| worker := worker v; activeTasks := activeTasks v; policy := policy v;
     stallSignals := stallSignals v; lastEventByTask := lastEventByTask v;
     chans := chans v; draws := n; logs := logs v |}.

Definition logPrintf (l : LogEntry) (v : VouchProxy) : VouchProxy :=
  {| worker := worker v; activeTasks := activeTasks v; policy := policy v;
     stallSignals := stallSignals v; lastEventByTask := lastEventByTask v;
     chans := chans v; draws := draws v; logs := logs v ++ [l] |}.

(** [v.worker.Submit(event)] *)
Definition workerSubmit (e : Event) (v : VouchProxy) : VouchProxy :=
  setWorker (Submit (worker v) e) v.

(** The proxy as [main] builds it. *)
Definition newVouchProxy (pol : option PolicyConfig) : VouchProxy :=
  {| worker := {| IsHealthy := true; submitted := [] |};
     activeTasks := ∅; policy := pol; stallSignals := ∅;
     lastEventByTask := ∅; chans := []; draws := 0%nat; logs := [] |}.

(** ** The interceptor *)

Section Interceptor.
Context `{W : World}.

(** Draw the id and the timestamp of the next event. *)
Definition nextID (v : VouchProxy) : string := uuid8 (draws v).
Definition nextTime (v : VouchProxy) : Z := now (draws v).
Definition drawn (v : VouchProxy) : VouchProxy := setDraws (S (draws v)) v.

(** [sendErrorResponse]: the error object is built and logged; the
    status code is not used and nothing is written to the client. *)
Definition sendErrorResponse (v : VouchProxy) (statusCode : Z) (code : Z)
    (message : string) : VouchProxy :=
  let errorResp :=
    {| RespJSONRPC := "2.0"; RespID := JNull; Result := None;
       Error := Some (<["code" := JNumber code]>
                      (<["message" := JString message]> ∅)) |} in
  logPrintf (LogSecurity message errorResp) v.

(** [extractTaskMetadata] *)
Definition extractTaskMetadata (body : string) : Fallible (MCPRequest * string * string) :=
  guard! (0 <? len body) or "request body is empty";
  guard! (len body <? 5 * 1024 * 1024) or "request body too large";
  match UnmarshalRequest body with
  | Err e => Err ("invalid JSON-RPC: " ++ e)
  | Ok mcpReq =>
    guard! (negb (bool_decide (Method mcpReq = ""))) or "method must not be empty";
    let taskID := default "" (asString (index (ReqParams mcpReq) "task_id")) in
    let taskState := "working" in
    if bool_decide (taskID = "") then Ok (mcpReq, taskID, taskState)
    else
      guard! (len taskID <=? 64) or "task_id too long";
      Ok (mcpReq, taskID, taskState)
  end.

(** The inner loop of [shouldStallMethod] over one rule's patterns; its
    [continue] goes on with the next pattern. *)
Fixpoint scanPatterns (rule : PolicyRule) (patterns : list string)
    (method : string) (params : option JMap) : bool :=
  match patterns with
  | [] => false
  | pattern :: rest =>
    if MatchPattern pattern method then
      match Conditions rule with
      | Some conds =>
        if negb (CheckConditions conds params)
        then scanPatterns rule rest method params
        else true
      | None => true
      end
    else scanPatterns rule rest method params
  end.

(** The outer loop of [shouldStallMethod]. *)
Fixpoint scanRules (rules : list PolicyRule) (method : string)
    (params : option JMap) : bool * option PolicyRule :=
  match rules with
  | [] => (false, None)
  | rule :: rest =>
    if bool_decide (Action rule <> "stall") then scanRules rest method params
    else if scanPatterns rule (MatchMethods rule) method params
         then (true, Some rule)
         else scanRules rest method params
  end.

(** [shouldStallMethod] *)
Definition shouldStallMethod (pol : PolicyConfig) (method : string)
    (params : option JMap) : bool * option PolicyRule :=
  match Check (negb (bool_decide (method = ""))) "method name must not be empty" with
  | Some _ => (false, None)
  | None => scanRules (Policies pol) method params
  end.

(** [evaluatePolicy] *)
Definition evaluatePolicy (v : VouchProxy) (method : string)
    (params : option JMap) : Fallible (bool * option PolicyRule) :=
  guard! (negb (bool_decide (method = ""))) or "method name required";
  match policy v with
  | None => Err "policy configuration missing"
  | Some pol => Ok (shouldStallMethod pol method params)
  end.

(** The inner loop of [redactParams]. *)
Fixpoint shouldRedact (k : string) (keys : list string) : bool :=
  match keys with
  | [] => false
  | key :: rest => if bool_decide (k = key) then true else shouldRedact k rest
  end.

(** [redactParams]: a fresh map is filled while ranging over [params]. *)
Definition redactParams (params : option JMap) (keys : list string) : JMap :=
  match params with
  | None => ∅
  | Some kv =>
    map_fold (fun k v redacted =>
                if shouldRedact k keys
                then <[k := JString "[REDACTED]"]> redacted
                else <[k := v]> redacted) ∅ kv
  end.

(** [redactSensitiveData]: its two assertions are discarded. *)
Definition redactSensitiveData (params : option JMap) (keys : list string) : JMap :=
  redactParams params keys.

(** [submitToolCallEvent] *)
Definition submitToolCallEvent (v : VouchProxy) (taskID taskState : string)
    (mcpReq : MCPRequest) (matchedRule : option PolicyRule) : VouchProxy :=
  let event :=
    {| EvID := nextID v; Timestamp := nextTime v; EventType := "tool_call";
       EvMethod := Method mcpReq; Params := ReqParams mcpReq; Response := None;
       TaskID := taskID; TaskState := taskState; ParentID := "";
       PolicyID := ""; EvRiskLevel := ""; WasBlocked := false |} in
  let v := drawn v in
  let event :=
    match matchedRule with
    | Some rule =>
      {| EvID := EvID event; Timestamp := Timestamp event;
         EventType := EventType event; EvMethod := EvMethod event;
         Params := if (0 <? Z.of_nat (List.length (Redact rule)))
                   then Some (redactSensitiveData (ReqParams mcpReq) (Redact rule))
                   else Params event;
         Response := Response event; TaskID := TaskID event;
         TaskState := TaskState event; ParentID := ParentID event;
         PolicyID := ID rule; EvRiskLevel := RiskLevel rule;
         WasBlocked := WasBlocked event |}
    | None => event
    end in
  if bool_decide (taskID = "") then workerSubmit event v
  else
    let event :=
      match lastEventByTask v !! taskID with
      | Some parentID =>
        {| EvID := EvID event; Timestamp := Timestamp event;
           EventType := EventType event; EvMethod := EvMethod event;
           Params := Params event; Response := Response event;
           TaskID := TaskID event; TaskState := TaskState event;
           ParentID := parentID; PolicyID := PolicyID event;
           EvRiskLevel := EvRiskLevel event; WasBlocked := WasBlocked event |}
      | None => event
      end in
    let v := setLastEventByTask (<[taskID := EvID event]> (lastEventByTask v)) v in
    let v := setActiveTasks (<[taskID := taskState]> (activeTasks v)) v in
    workerSubmit event v.

(** A goroutine parked on [<-approvalChan] inside [handleStall], with
    what it needs to go on. *)
Record Parked := mkParked {
  p_req : Request;
  p_taskID : string;
  p_taskState : string;
  p_mcpReq : MCPRequest;
  p_rule : PolicyRule;
  p_eventID : string;
  p_chan : nat;
}.

(** [handleStall] up to the receive: the [blocked] event is submitted and
    a new channel is stored under the event id.  The request is a value
    here, so the assertion that it is not nil always passes.  The warning
    about earlier failures of the task only writes a log line from the
    store and is left out. *)
Definition handleStall (v : VouchProxy) (taskID taskState : string)
    (mcpReq : MCPRequest) (matchedRule : option PolicyRule)
    : Fallible (VouchProxy * string * nat) :=
  match matchedRule with
  | None => Err "matchedRule must not be nil"
  | Some rule =>
    let eventID := nextID v in
    let ts := nextTime v in
    let v := drawn v in
    let v := logPrintf (LogStall (Method mcpReq) (ID rule) eventID) v in
    let event :=
      {| EvID := eventID; Timestamp := ts; EventType := "blocked";
         EvMethod := Method mcpReq; Params := ReqParams mcpReq; Response := None;
         TaskID := taskID; TaskState := taskState; ParentID := "";
         PolicyID := ID rule; EvRiskLevel := RiskLevel rule; WasBlocked := true |} in
    let v := workerSubmit event v in
    let approvalChan := List.length (chans v) in
    let v := setChans (chans v ++ [{| buffer := None; receiver := Away |}]) v in
    let v := setStallSignals (<[eventID := approvalChan]> (stallSignals v)) v in
    let v := logPrintf (LogWaiting eventID) v in
    Ok (v, eventID, approvalChan)
  end.

Definition setChan (c : nat) (ch : Chan) (v : VouchProxy) : VouchProxy :=
  setChans (<[c := ch]> (chans v)) v.

(** The receive [<-approvalChan] by the channel's receiver.  A value that
    was handed over or that waits in the buffer is taken.  Otherwise the
    goroutine parks, or stays parked, and nothing is received. *)
Definition receive (v : VouchProxy) (c : nat) : VouchProxy * option bool :=
  match chans v !! c with
  | Some ch =>
    match receiver ch, buffer ch with
    | Handed b, _ => (setChan c {| buffer := buffer ch; receiver := Away |} v, Some b)
    | Away, Some b => (setChan c {| buffer := None; receiver := Away |} v, Some b)
    | Away, None => (setChan c {| buffer := None; receiver := Waiting |} v, None)
    | Waiting, _ => (v, None)
    end
  | None => (v, None)
  end.

(** A send that does not block: [select { case c <- b: ... default: ... }].
    The value goes to a parked receiver if there is one, else into the
    buffer if it is free; else the send is not made. *)
Definition trySend (v : VouchProxy) (c : nat) (b : bool) : option VouchProxy :=
  match chans v !! c with
  | Some ch =>
    match receiver ch, buffer ch with
    | Waiting, _ => Some (setChan c {| buffer := buffer ch; receiver := Handed b |} v)
    | _, None => Some (setChan c {| buffer := Some b; receiver := receiver ch |} v)
    | _, Some _ => None
    end
  | None => None
  end.

(** How far [interceptRequest] got. *)
Inductive Progress :=
| Returned
| Blocked (p : Parked).

(** [interceptRequest] up to its return or up to the receive in
    [handleStall].  The request comes back as the director leaves it. *)
Definition interceptRequest (v : VouchProxy) (req : Request)
    : VouchProxy * Request * Progress :=
  if bool_decide (HttpMethod req <> "POST") then (v, req, Returned)
  else
    match ReadAll (Body req) with
    | (_, Some err) =>
      (logPrintf (LogReadFailed err) v, withBody req (drained (Body req)), Returned)
    | (bodyBytes, None) =>
      let req := withBody req (NopCloser bodyBytes) in
      match extractTaskMetadata bodyBytes with
      | Err e => (sendErrorResponse v StatusBadRequest (-32000) e, req, Returned)
      | Ok (mcpReq, taskID, taskState) =>
        if negb (IsHealthy (worker v)) then
          (sendErrorResponse v StatusServiceUnavailable (-32000)
             "Ledger Storage Failure", req, Returned)
        else
          match evaluatePolicy v (Method mcpReq) (ReqParams mcpReq) with
          | Err _ =>
            (sendErrorResponse v StatusBadRequest (-32000) "Policy violation",
             req, Returned)
          | Ok (shouldStall, matchedRule) =>
            if shouldStall then
              match handleStall v taskID taskState mcpReq matchedRule, matchedRule with
              | Ok (v', eventID, c), Some rule =>
                (v', req,
                 Blocked {| p_req := req; p_taskID := taskID;
                            p_taskState := taskState; p_mcpReq := mcpReq;
                            p_rule := rule; p_eventID := eventID; p_chan := c |})
              | _, _ =>
                (sendErrorResponse v StatusForbidden (-32000)
                   "Stall rejected or failed", req, Returned)
              end
            else
              (submitToolCallEvent v taskID taskState mcpReq matchedRule,
               req, Returned)
          end
      end
    end.

(** [interceptRequest] from the receive on: nothing is returned while
    nothing has arrived on the channel.  The boolean is the value
    received. *)
Definition interceptRequest_resume (v : VouchProxy) (p : Parked)
    : VouchProxy * option (Request * bool) :=
  match receive v (p_chan p) with
  | (v, None) => (v, None)
  | (v, Some approved) =>
    if negb approved then
      (sendErrorResponse v StatusForbidden (-32000) "Stall rejected or failed",
       Some (p_req p, false))
    else
      (submitToolCallEvent v (p_taskID p) (p_taskState p) (p_mcpReq p)
         (Some (p_rule p)),
       Some (p_req p, true))
  end.

(** The goroutine [handleStall] starts on standard input: once a line is
    read it sends [true] if the event id is still registered.  [None]
    while that send blocks. *)
Definition stdinSignal (v : VouchProxy) (p : Parked) : option VouchProxy :=
  match stallSignals v !! p_eventID p with
  | Some _ => trySend v (p_chan p) true
  | None => Some v
  end.

(** [interceptResponse] *)
Definition interceptResponse (v : VouchProxy) (resp : HttpResponse)
    : VouchProxy * HttpResponse * option string :=
  match ReadAll (RespBody resp) with
  | (_, Some err) => (v, withRespBody resp (drained (RespBody resp)), Some err)
  | (bodyBytes, None) =>
    let resp := withRespBody resp (NopCloser bodyBytes) in
    match UnmarshalResponse bodyBytes with
    | Err _ => (v, resp, None)
    | Ok mcpResp =>
      if negb (IsHealthy (worker v)) then
        (logPrintf LogDroppingResponse v, resp, None)
      else
        let taskID := default "" (asString (index (Result mcpResp) "task_id")) in
        let state := asString (index (Result mcpResp) "state") in
        let taskState := default "" state in
        let v :=
          match state with
          | Some _ =>
            if bool_decide (taskID = "") then v
            else setActiveTasks (<[taskID := taskState]> (activeTasks v)) v
          | None => v
          end in
        let event :=
          {| EvID := nextID v; Timestamp := nextTime v;
             EventType := "tool_response"; EvMethod := ""; Params := None;
             Response := Result mcpResp; TaskID := taskID;
             TaskState := taskState; ParentID := ""; PolicyID := "";
             EvRiskLevel := ""; WasBlocked := false |} in
        (workerSubmit event (drawn v), resp, None)
    end
  end.

End Interceptor.

(** ** The control API *)

(** [strings.TrimPrefix] *)
Fixpoint stripPrefix (s prefix : string) {struct prefix} : option string :=
  match prefix with
  | EmptyString => Some s
  | String c prefix' =>
    match s with
    | String d s' => if Ascii.eqb c d then stripPrefix s' prefix' else None
    | EmptyString => None
    end
  end.

Definition TrimPrefix (s prefix : string) : string :=
  default s (stripPrefix s prefix).

(** The body of [handleApprove] and [handleReject], which differ in the
    prefix, in the value sent and in the words written. *)
Definition handleSignal (prefix : string) (approved : bool) (done : string)
    (mark : string -> LogEntry) (v : VouchProxy) (r : Request)
    : VouchProxy * Written :=
  let eventID := TrimPrefix (Path r) prefix in
  if bool_decide (eventID = "") then (v, httpError "Event ID required" StatusBadRequest)
  else
    match stallSignals v !! eventID with
    | None => (v, httpError "Event not found or already processed" StatusNotFound)
    | Some approvalChan =>
      match trySend v approvalChan approved with
      | Some v' =>
        (logPrintf (mark eventID) v', {| status := StatusOK; text := done ++ nl |})
      | None => (v, httpError "Event already processed" StatusConflict)
      end
    end.

(** [handleApprove] *)
Definition handleApprove : VouchProxy -> Request -> VouchProxy * Written :=
  handleSignal "/api/approve/" true "Event approved" LogApproved.

(** [handleReject] *)
Definition handleReject : VouchProxy -> Request -> VouchProxy * Written :=
  handleSignal "/api/reject/" false "Event rejected" LogRejected.

(** [handleRekey].  Modelled from the spec: [crypto.Signer] is not among
    the sources; its [RotateKey] replaces the key file and returns the old
    and the new public key in hex, or an error.  The outcome of that call
    is the argument [rotated]. *)
Definition handleRekey (v : VouchProxy) (rotated : Fallible (string * string))
    : VouchProxy * Written :=
  match rotated with
  | Err err =>
    (v, httpError ("Failed to rotate key: " ++ err) StatusInternalServerError)
  | Ok (oldPubKey, newPubKey) =>
    (logPrintf (LogKeyRotation oldPubKey newPubKey) v,
     {| status := StatusOK;
        text := "Key rotated successfully" ++ nl ++ "Old: " ++ oldPubKey
                ++ nl ++ "New: " ++ newPubKey |})
  end.

(** ** The reverse proxy around the two hooks *)

Section ReverseProxy.
Context `{W : World}.
Variable upstream : Request -> HttpResponse.

(** [httputil.ReverseProxy] after the director: the outgoing request
    goes to the transport, [ModifyResponse] sees the answer, and the
    client gets that answer, or 502 when [ModifyResponse] fails. *)
Definition roundTrip (v : VouchProxy) (out : Request) : VouchProxy * HttpResponse :=
  match interceptResponse v (upstream out) with
  | (v', resp, None) => (v', resp)
  | (v', _, Some _) =>
    (v', {| StatusCode := StatusBadGateway; RespBody := NopCloser "" |})
  end.

(** What the client has got so far: the answer, nothing yet while the
    request is parked in a stall, or nothing at all because the handler
    panicked and the server dropped the connection. *)
Inductive Served :=
| Answered (answer : HttpResponse)
| Pending
| Aborted.

(** A nil [Body], as the transport sends it on: no bytes. *)
Definition noBody : BodyReader := NopCloser "".

(** [ReverseProxy.ServeHTTP].  The outgoing request is a copy of the
    incoming one, and its [Body] is set to nil when the incoming
    [ContentLength] is 0.  The director is [interceptRequest]; it has no
    result the proxy could act on.  With a nil body a request that is not
    a POST passes the director at its first line, and for a POST
    [io.ReadAll(req.Body)] reads from a nil reader and panics: nothing has
    changed by then, nothing is sent on and the client gets no answer. *)
Definition serveHTTP (v : VouchProxy) (req : Request) (contentLength : Z)
    : VouchProxy * Served :=
  let bodyIsNil := contentLength =? 0 in
  let outreq := if bodyIsNil then withBody req noBody else req in
  if bodyIsNil && bool_decide (HttpMethod outreq = "POST") then (v, Aborted)
  else
    match interceptRequest v outreq with
    | (v', out, Returned) =>
      let (v'', answer) := roundTrip v' out in (v'', Answered answer)
    | (v', _, Blocked _) => (v', Pending)
    end.


End ReverseProxy.

(** ** The process as a transition system *)

Section Process.
Context `{W : World}.

(** What a goroutine holds when it reaches a [worker.Submit]: the values
    it drew, took from the request or loaded before, from which the event
    literal is filled.  One constructor for each of the three calls, in
    [submitToolCallEvent], [handleStall] and [interceptResponse]. *)
Inductive Built :=
| BuiltToolCall (id : string) (ts : Z) (taskID taskState : string)
    (mcpReq : MCPRequest) (matchedRule : option PolicyRule) (parentID : string)
| BuiltBlocked (id : string) (ts : Z) (taskID taskState : string)
    (mcpReq : MCPRequest) (rule : PolicyRule)
| BuiltResponse (id : string) (ts : Z) (mcpResp : MCPResponse)
    (taskID taskState : string).

(** The event of each of the three literals. *)
Definition eventOf (b : Built) : Event :=
  match b with
  | BuiltToolCall id ts taskID taskState mcpReq matchedRule parentID =>
    {| EvID := id; Timestamp := ts; EventType := "tool_call";
       EvMethod := Method mcpReq;
       Params := match matchedRule with
                 | Some rule =>
                   if (0 <? Z.of_nat (List.length (Redact rule)))
                   then Some (redactSensitiveData (ReqParams mcpReq) (Redact rule))
                   else ReqParams mcpReq
                 | None => ReqParams mcpReq
                 end;
       Response := None; TaskID := taskID; TaskState := taskState;
       ParentID := parentID;
       PolicyID := match matchedRule with Some rule => ID rule | None => "" end;
       EvRiskLevel := match matchedRule with
                      | Some rule => RiskLevel rule
                      | None => ""
                      end;
       WasBlocked := false |}
  | BuiltBlocked id ts taskID taskState mcpReq rule =>
    {| EvID := id; Timestamp := ts; EventType := "blocked";
       EvMethod := Method mcpReq; Params := ReqParams mcpReq; Response := None;
       TaskID := taskID; TaskState := taskState; ParentID := "";
       PolicyID := ID rule; EvRiskLevel := RiskLevel rule; WasBlocked := true |}
  | BuiltResponse id ts mcpResp taskID taskState =>
    {| EvID := id; Timestamp := ts; EventType := "tool_response"; EvMethod := "";
       Params := None; Response := Result mcpResp; TaskID := taskID;
       TaskState := taskState; ParentID := ""; PolicyID := ""; EvRiskLevel := "";
       WasBlocked := false |}
  end.

(** One step of some goroutine.  The first eight are the segments of the
    handlers between two suspension points, each run without a step of
    another goroutine inside it, and the worker's change of its health
    flag.  The others are the single accesses to
    the shared state that those segments are made of, so that a run may
    also interleave the accesses of several goroutines: [sync.Map]
    stores, [worker.Submit], a channel operation and a log line are each
    atomic in the program, and nothing orders two of them in different
    goroutines.  Loads and [IsHealthy] change nothing and need no step.
    What a goroutine holds locally is an argument of its step and may be
    any value; a parked goroutine may likewise be resumed with any
    record: the steps over-approximate the schedules of the process. *)
Inductive Op :=
| OpRequest (req : Request)
| OpResume (p : Parked)
| OpStdin (p : Parked)
| OpResponse (resp : HttpResponse)
| OpApprove (r : Request)
| OpReject (r : Request)
| OpRekey (rotated : Fallible (string * string))
| OpHealth (healthy : bool)
(** [uuid.New()] and [time.Now()] of an event literal *)
| OpDraw
(** [log.Printf] *)
| OpLog (l : LogEntry)
(** [v.worker.Submit(event)] *)
| OpSubmit (b : Built)
(** [v.lastEventByTask.Store(taskID, event.ID)] *)
| OpStoreLast (taskID eventID : string)
(** [v.activeTasks.Store(taskID, taskState)] *)
| OpStoreActive (taskID taskState : string)
(** [approvalChan := make(chan bool, 1)] and
    [v.stallSignals.Store(eventID, approvalChan)] *)
| OpRegister (eventID : string)
(** [<-approvalChan] *)
| OpReceive (c : nat)
(** [approvalChan <- b], in a [select] with a default or, in the
    goroutine on standard input, on its own: no step while it blocks *)
| OpSend (c : nat) (b : bool).

Definition step (v : VouchProxy) (op : Op) : VouchProxy :=
  match op with
  | OpRequest req => (interceptRequest v req).1.1
  | OpResume p => (interceptRequest_resume v p).1
  | OpStdin p => default v (stdinSignal v p)
  | OpResponse resp => (interceptResponse v resp).1.1
  | OpApprove r => (handleApprove v r).1
  | OpReject r => (handleReject v r).1
  | OpRekey rotated => (handleRekey v rotated).1
  | OpHealth healthy =>
    setWorker {| IsHealthy := healthy; submitted := submitted (worker v) |} v
  | OpDraw => drawn v
  | OpLog l => logPrintf l v
  | OpSubmit b => workerSubmit (eventOf b) v
  | OpStoreLast taskID eventID =>
    setLastEventByTask (<[taskID := eventID]> (lastEventByTask v)) v
  | OpStoreActive taskID taskState =>
    setActiveTasks (<[taskID := taskState]> (activeTasks v)) v
  | OpRegister eventID =>
    let approvalChan := List.length (chans v) in
    let v := setChans (chans v ++ [{| buffer := None; receiver := Away |}]) v in
    setStallSignals (<[eventID := approvalChan]> (stallSignals v)) v
  | OpReceive c => (receive v c).1
  | OpSend c b => default v (trySend v c b)
  end.


Definition run (ops : list Op) (v : VouchProxy) : VouchProxy :=
  fold_left step ops v.

End Process.

(** ** Notions the properties are stated with *)

Section Notions.
Context `{W : World}.

(** A rule applies to a call when one of its patterns matches the method
    and its conditions, if it has any, hold over the params. *)
Definition ruleApplies (method : string) (params : option JMap)
    (rule : PolicyRule) : bool :=
  existsb (fun pattern => MatchPattern pattern method) (MatchMethods rule)
  && match Conditions rule with
     | Some conds => CheckConditions conds params
     | None => true
     end.

(** The decision as the specification words it: the first rule that
    applies, whatever its action. *)
Definition firstApplicable (rules : list PolicyRule) (method : string)
    (params : option JMap) : option PolicyRule :=
  List.find (ruleApplies method params) rules.

(** The first rule of action [stall] that applies. *)
Definition firstStall (rules : list PolicyRule) (method : string)
    (params : option JMap) : option PolicyRule :=
  List.find (fun rule => bool_decide (Action rule = "stall")
                         && ruleApplies method params rule) rules.

(** The params of the [tool_call] event, given the matched rule. *)
Definition toolCallParams (mcpReq : MCPRequest) (matchedRule : option PolicyRule)
    : option JMap :=
  match matchedRule with
  | Some rule =>
    if (0 <? Z.of_nat (List.length (Redact rule)))
    then Some (redactParams (ReqParams mcpReq) (Redact rule))
    else ReqParams mcpReq
  | None => ReqParams mcpReq
  end.

(** The events handed to the ledger so far. *)
Definition ledger (v : VouchProxy) : list Event := submitted (worker v).





(** A step that leaves the ledger, the draws and the last-event map. *)
Definition unchanged (v v' : VouchProxy) : Prop :=
  draws v' = draws v /\ ledger v' = ledger v /\
  lastEventByTask v' = lastEventByTask v.



(** The value [b] has arrived for the receiver of channel [c]: it was
    handed over, or it waits in the buffer. *)
Definition arrived (v : VouchProxy) (c : nat) (b : bool) : Prop :=
  exists ch,
    chans v !! c = Some ch /\
    (receiver ch = Handed b \/ (receiver ch = Away /\ buffer ch = Some b)).

(** Nothing has arrived for the receiver of channel [c]. *)
Definition nothingArrived (v : VouchProxy) (c : nat) : Prop :=
  exists ch,
    chans v !! c = Some ch /\ buffer ch = None /\
    (receiver ch = Away \/ receiver ch = Waiting).


(** An error response was issued by [sendErrorResponse] with this
    message and code: the log ends with its line. *)
Definition issuedError (before after : VouchProxy) (code : Z) (message : string) : Prop :=
  exists json,
    logs after = (logs before ++ [LogSecurity message json])%list /\
    Error json = Some (<["code" := JNumber code]>
                       (<["message" := JString message]> ∅)).

End Notions.

(** ** Steps and events *)

(** A step that is not the receive on channel [c]. *)
Definition leavesChannel (c : nat) (op : Op) : Prop :=
  match op with
  | OpResume p => p_chan p <> c
  | OpReceive c' => c' <> c
  | _ => True
  end.

(** An event as the interceptor builds them: a [blocked] event, a
    [tool_call] event or a [tool_response] event. *)
Definition interceptorEvent (e : Event) : Prop :=
  (EventType e = "blocked" /\ WasBlocked e = true /\ ParentID e = "" /\
   Response e = None)
  \/ (EventType e = "tool_call" /\ WasBlocked e = false /\ Response e = None)
  \/ (EventType e = "tool_response" /\ WasBlocked e = false /\ ParentID e = "" /\
      Params e = None /\ EvMethod e = "" /\ PolicyID e = "").

(** ** A concrete world and the documents of the scenarios *)

Module Scenario.

(** Modelled from the spec: [proxy.MatchPattern] is not among the
    sources.  [*] matches any method, a pattern that ends in [*] matches
    the methods that start with the rest, any other pattern matches
    itself only. *)
Fixpoint globMatch (pattern method : string) : bool :=
  match pattern with
  | EmptyString => bool_decide (method = "")
  | String c rest =>
    if bool_decide (pattern = "*") then true
    else match method with
         | String d method' => Ascii.eqb c d && globMatch rest method'
         | EmptyString => false
         end
  end.

Definition valueEqb (a b : JValue) : bool :=
  match a, b with
  | JNull, JNull => true
  | JBool x, JBool y => Bool.eqb x y
  | JNumber x, JNumber y => Z.eqb x y
  | JString x, JString y => bool_decide (x = y)
  | _, _ => false
  end.

(** Modelled from the spec: [proxy.CheckConditions] is not among the
    sources.  The conditions are a conjunction of [key op value]
    predicates over the params, with the operators [eq], [neq], [in],
    [gt], [lt] and [contains]. *)
Definition holds (params : option JMap) (c : Condition) : bool :=
  match index params (CondKey c) with
  | None => false
  | Some actual =>
    if bool_decide (CondOp c = "eq") then valueEqb actual (CondValue c)
    else if bool_decide (CondOp c = "neq") then negb (valueEqb actual (CondValue c))
    else if bool_decide (CondOp c = "in") then
      match CondValue c with
      | JArray xs => existsb (valueEqb actual) xs
      | _ => false
      end
    else if bool_decide (CondOp c = "gt") then
      match actual, CondValue c with
      | JNumber x, JNumber y => y <? x
      | _, _ => false
      end
    else if bool_decide (CondOp c = "lt") then
      match actual, CondValue c with
      | JNumber x, JNumber y => x <? y
      | _, _ => false
      end
    else if bool_decide (CondOp c = "contains") then
      match actual, CondValue c with
      | JString x, JString y =>
        bool_decide (y = "") || negb (bool_decide (String.index 0 y x = None))
      | _, _ => false
      end
    else false
  end.

Definition checkAll (conds : list Condition) (params : option JMap) : bool :=
  forallb (holds params) conds.

Definition hexDigit (n : N) : ascii :=
  match n with
  | 0%N => "0" | 1%N => "1" | 2%N => "2" | 3%N => "3" | 4%N => "4"
  | 5%N => "5" | 6%N => "6" | 7%N => "7" | 8%N => "8" | 9%N => "9"
  | 10%N => "a" | 11%N => "b" | 12%N => "c" | 13%N => "d" | 14%N => "e"
  | _ => "f"
  end%char.

Fixpoint hex (digits : nat) (n : N) (acc : string) : string :=
  match digits with
  | O => acc
  | S d => hex d (n / 16)%N (String (hexDigit (n mod 16)%N) acc)
  end.

(** Eight hex digits, as the first eight characters of a UUID are. *)
Definition hex8 (n : nat) : string := hex 8 (N.of_nat n) "".

Definition q : string := String (ascii_of_nat 34) EmptyString.
Definition quoted (s : string) : string := q ++ s ++ q.
Definition member (k v : string) : string := quoted k ++ ":" ++ v.

Definition rpcCall (id method params : string) : string :=
  "{" ++ member "jsonrpc" (quoted "2.0") ++ "," ++ member "id" id ++ ","
      ++ member "method" (quoted method) ++ "," ++ member "params" params ++ "}".

Definition bodyRead : string :=
  rpcCall "1" "fs.read"
    ("{" ++ member "path" (quoted "/etc/hosts") ++ ","
         ++ member "task_id" (quoted "T1") ++ "}").

Definition bodyDrop : string :=
  rpcCall "2" "db.drop_root"
    ("{" ++ member "table" (quoted "users") ++ ","
         ++ member "task_id" (quoted "T2") ++ "}").

Definition bodyLogin : string :=
  rpcCall "3" "auth.login"
    ("{" ++ member "user" (quoted "a") ++ "," ++ member "password" (quoted "p")
         ++ "," ++ member "token" (quoted "t") ++ "}").

Definition bodyLoginNoToken : string :=
  rpcCall "4" "auth.login"
    ("{" ++ member "user" (quoted "a") ++ "," ++ member "password" (quoted "p") ++ "}").

Definition bodyResult : string :=
  "{" ++ member "jsonrpc" (quoted "2.0") ++ "," ++ member "id" "1" ++ ","
      ++ member "result" ("{" ++ member "task_id" (quoted "T1") ++ ","
                              ++ member "state" (quoted "completed") ++ "}") ++ "}".

Definition bodyHtml : string := "<html>ok</html>".

Definition paramsRead : JMap :=
  <["path" := JString "/etc/hosts"]> (<["task_id" := JString "T1"]> ∅).
Definition paramsDrop : JMap :=
  <["table" := JString "users"]> (<["task_id" := JString "T2"]> ∅).
Definition paramsLogin : JMap :=
  <["user" := JString "a"]>
    (<["password" := JString "p"]> (<["token" := JString "t"]> ∅)).
Definition paramsLoginNoToken : JMap :=
  <["user" := JString "a"]> (<["password" := JString "p"]> ∅).

Definition call (id : Z) (method : string) (params : JMap) : MCPRequest :=
  {| ReqJSONRPC := "2.0"; ReqID := JNumber id; Method := method;
     ReqParams := Some params |}.

Definition reqRead : MCPRequest := call 1 "fs.read" paramsRead.
Definition reqDrop : MCPRequest := call 2 "db.drop_root" paramsDrop.
Definition reqLogin : MCPRequest := call 3 "auth.login" paramsLogin.
Definition reqLoginNoToken : MCPRequest := call 4 "auth.login" paramsLoginNoToken.

Definition resultDone : MCPResponse :=
  {| RespJSONRPC := "2.0"; RespID := JNumber 1;
     Result := Some (<["task_id" := JString "T1"]>
                     (<["state" := JString "completed"]> ∅));
     Error := None |}.

(** A decoder that knows the documents above and refuses every other
    body. *)
Definition decodeRequest (body : string) : Fallible MCPRequest :=
  if bool_decide (body = bodyRead) then Ok reqRead
  else if bool_decide (body = bodyDrop) then Ok reqDrop
  else if bool_decide (body = bodyLogin) then Ok reqLogin
  else if bool_decide (body = bodyLoginNoToken) then Ok reqLoginNoToken
  else Err "invalid character".

Definition decodeResponse (body : string) : Fallible MCPResponse :=
  if bool_decide (body = bodyResult) then Ok resultDone
  else Err "invalid character".

#[export] Instance world : World := {|
  UnmarshalRequest := decodeRequest;
  UnmarshalResponse := decodeResponse;
  MatchPattern := globMatch;
  CheckConditions := checkAll;
  uuid8 := hex8;
  now := fun n => 1700000000000 + Z.of_nat n;
|}.

Definition post (body : string) : Request :=
  {| HttpMethod := "POST"; Path := "/"; Body := NopCloser body |}.

Definition get : Request :=
  {| HttpMethod := "GET"; Path := "/"; Body := NopCloser "" |}.

Definition control (path : string) : Request :=
  {| HttpMethod := "POST"; Path := path; Body := NopCloser "" |}.

Definition rule (id : string) (patterns : list string) (action : string)
    (redact : list string) : PolicyRule :=
  {| ID := id; MatchMethods := patterns; Action := action;
     RiskLevel := "critical"; Redact := redact; Conditions := None |}.

Definition auditAll : PolicyRule := rule "audit-all" ["*"] "allow" [].
Definition protectDatabase : PolicyRule :=
  rule "prevent-deletion" ["os.remove"; "db.drop_root"] "stall" [].
Definition scrubLoginAllow : PolicyRule :=
  rule "scrub-login" ["auth.login"] "allow" ["password"; "token"].
Definition scrubLoginStall : PolicyRule :=
  rule "scrub-login" ["auth.*"] "stall" ["password"; "token"].

Definition policyOf (rules : list PolicyRule) : option PolicyConfig :=
  Some {| Version := "1"; Policies := rules |}.

Definition proxyWith (rules : list PolicyRule) : VouchProxy :=
  newVouchProxy (policyOf rules).

Definition unhealthy (v : VouchProxy) : VouchProxy :=
  setWorker {| IsHealthy := false; submitted := submitted (worker v) |} v.

(** A body of [n] bytes. *)
Fixpoint padding (n : nat) : string :=
  match n with
  | O => ""
  | S n' => String "x" (padding n')
  end.

(** A body of exactly 5 MiB. *)
Definition bigBody : string := padding (Z.to_nat (5 * 1024 * 1024)).

(** The goroutines that park when the calls below are stalled first in
    a fresh process. *)
Definition parked (body : string) (task : string) (mcpReq : MCPRequest)
    (by_rule : PolicyRule) : Parked :=
  {| p_req := post body; p_taskID := task; p_taskState := "working";
     p_mcpReq := mcpReq; p_rule := by_rule; p_eventID := "00000000";
     p_chan := 0%nat |}.

Definition parkedDrop : Parked := parked bodyDrop "T2" reqDrop protectDatabase.
Definition parkedLogin : Parked := parked bodyLogin "" reqLogin scrubLoginStall.
Definition parkedLoginNoToken : Parked :=
  parked bodyLoginNoToken "" reqLoginNoToken scrubLoginStall.

Definition approvePath : Request := control "/api/approve/00000000".
Definition rejectPath : Request := control "/api/reject/00000000".

(** An upstream that answers every request with 200 and a result. *)
Definition upstreamOK (_ : Request) : HttpResponse :=
  {| StatusCode := StatusOK; RespBody := NopCloser bodyResult |}.


End Scenario.

(** ** The command line tools *)

Module Cli.

(** An argument of a [Printf] call. *)
Inductive Arg :=
| AStr (s : string)
| AInt (n : Z).

(** One call that prints: [fmt.Printf], [fmt.Print] and [fmt.Println] on
    standard output (the latter with its newline written out), or the
    message of [log.Fatalf]. *)
Inductive Printed :=
| Printf (format : string) (args : list Arg)
| Fatalf (format : string) (args : list Arg).

(** What becomes of [flags.Parse(os.Args[2:])], for a flag set built
    with [flag.ExitOnError]: the value of the one flag the set defines, a
    request for help ([-h] or [-help]), arguments the set refuses, or no
    call at all because [os.Args] has fewer than two elements and the
    slice expression panics.  The [flag] package is not among the
    sources; on a request for help and on arguments it refuses it writes
    to standard error and leaves through [os.Exit], with status 0 after a
    request for help and status 2 otherwise. *)
Inductive Parse (A : Type) :=
| Parsed (value : A)
| ParseHelp
| ParseFailed
| NoArguments.
Arguments Parsed {A} value.
Arguments ParseHelp {A}.
Arguments ParseFailed {A}.
Arguments NoArguments {A}.

(** How a command ends: it returns, it leaves through [os.Exit], or it
    panics. *)
Inductive Ending :=
| Returns
| Exits (code : Z)
| Panics.

(** A run of a command: what it printed itself, how it ended, and
    whether the deferred [db.Close()] ran ([os.Exit] skips deferred
    calls, a panic runs them).  What the [flag] package writes before it
    exits is not among the lines. *)
Record Run := mkRun {
  output : list Printed;
  ending : Ending;
  closed : bool;
}.

Definition stop (e : Ending) (c : bool) : Run :=
  {| output := []; ending := e; closed := c |}.

Definition say (l : Printed) (k : Run) : Run :=
  {| output := l :: output k; ending := ending k; closed := closed k |}.

(** [log.Fatalf]: the message, then [os.Exit(1)]. *)
Definition fatal (format : string) (err : string) : Run :=
  say (Fatalf format [AStr err]) (stop (Exits 1) false).

(** The slice [s[:n]] of a Go string; [None] when it panics. *)
Fixpoint slice (s : string) (n : nat) {struct n} : option string :=
  match n with
  | O => Some ""
  | S n' =>
    match s with
    | EmptyString => None
    | String c s' => option_map (String c) (slice s' n')
    end
  end.

(** The result of [VerifyChain]. *)
Record ChainResult := mkChainResult {
  Valid : bool;
  TotalEvents : Z;
  ErrorMessage : string;
  FailedAtSeq : Z;
}.

(** The result of [VerifyAnchors]. *)
Record AnchorResult := mkAnchorResult {
  AnchorsValid : bool;
  AnchorsChecked : Z;
  AnchorError : string;
}.

(** An event as the store returns it. *)
Record StoredEvent := mkStoredEvent {
  SeqIndex : Z;
  StoredID : string;
  StoredType : string;
  StoredMethod : string;
  StoredBlocked : bool;
}.

(** What the commands get from the store, the signer and the verifier,
    none of which is among the sources: the outcome of each call. *)
Record Env := mkEnv {
  (** [NewDB(path)]: its error, if any *)
  NewDB : option string;
  (** [NewSigner(path)]: its error, if any *)
  NewSigner : option string;
  (** [db.GetRunID()] *)
  GetRunID : Fallible string;
  (** [VerifyChain(db, runID, signer)] *)
  VerifyChain : string -> Fallible ChainResult;
  (** [VerifyAnchors(db, runID)] *)
  VerifyAnchors : string -> Fallible AnchorResult;
  (** [db.GetRunInfo(runID)]: agent name, genesis hash, public key *)
  GetRunInfo : string -> Fallible (string * string * string);
  (** [db.GetRecentEvents(runID, limit)] *)
  GetRecentEvents : string -> Z -> Fallible (list StoredEvent);
}.

Definition withAnchors (anchors : string -> Fallible AnchorResult) (env : Env) : Env :=
  {| NewDB := NewDB env; NewSigner := NewSigner env; GetRunID := GetRunID env;
     VerifyChain := VerifyChain env; VerifyAnchors := anchors;
     GetRunInfo := GetRunInfo env; GetRecentEvents := GetRecentEvents env |}.

(** [err == nil] *)
Definition isNil (err : option string) : bool :=
  match err with
  | None => true
  | Some _ => false
  end.

(** The report of a chain that does not verify, shared by both verify
    commands up to the first line. *)
Definition reportFailure (first : string) (result : ChainResult) : Run :=
  say (Printf first [])
    (say (Printf "  Error: %s\n" [AStr (ErrorMessage result)])
       (if 0 <? FailedAtSeq result
        then say (Printf "  Failed at sequence: %d\n" [AInt (FailedAtSeq result)])
               (stop (Exits 1) false)
        else stop (Exits 1) false)).

(** [VerifyCommand] of the [commands] package.  [flags] is what becomes
    of [verifyFlags.Parse(os.Args[2:])], the value being that of
    [--skip-live]. *)
Definition VerifyCommand (flags : Parse bool) (env : Env) : Run :=
  match flags with
  | NoArguments => stop Panics false
  | ParseHelp => stop (Exits 0) false
  | ParseFailed => stop (Exits 2) false
  | Parsed skipLive =>
  match Check (isNil (NewDB env)) "failed to open database: %v" with
  | Some err => fatal "Failed to open database: %v" err
  | None =>
    match Check (isNil (NewSigner env)) "failed to load signer: %v" with
    | Some err => fatal "Failed to load signer: %v" err
    | None =>
      match GetRunID env with
      | Err err => fatal "Failed to get run ID: %v" err
      | Ok runID =>
        if bool_decide (runID = "") then
          say (Printf "No runs found in database\n" []) (stop Returns true)
        else
          match slice runID 8 with
          | None => stop Panics true
          | Some shown =>
            say (Printf "Verifying chain for run: %s\n" [AStr shown])
              match VerifyChain env runID with
              | Err err => fatal "Verification error: %v" err
              | Ok result =>
                if Valid result then
                  say (Printf "[OK] Chain is valid (%d events verified)\n"
                         [AInt (TotalEvents result)])
                    (if skipLive then stop Returns true
                     else
                       say (Printf "Verifying external Bitcoin anchors...\n" [])
                         match VerifyAnchors env runID with
                         | Err err =>
                           say (Printf "[WARN] Anchor verification failed: %v\n"
                                  [AStr err])
                             (stop Returns true)
                         | Ok anchorResult =>
                           if AnchorsValid anchorResult then
                             say (Printf
                                    "[OK] Bitcoin anchors verified against Blockstream API (%d anchors checked)\n"
                                    [AInt (AnchorsChecked anchorResult)])
                               (stop Returns true)
                           else
                             say (Printf "[FAILED] Bitcoin anchor mismatch: %s\n"
                                    [AStr (AnchorError anchorResult)])
                               (stop (Exits 1) false)
                         end)
                else reportFailure "[FAILED] Chain verification failed\n" result
              end
          end
      end
    end
  end
  end.

(** [printUsage] *)
Definition printUsage : list Printed :=
  [Printf "AEL CLI - Agent Execution Ledger Command Line Tool\n" [];
   Printf "\n" [];
   Printf "Usage:\n" [];
   Printf "  ael verify              Validate the entire hash chain\n" [];
   Printf "  ael status              Show current run information\n" [];
   Printf "  ael events [--limit N]  List recent events (default: 10)\n" [];
   Printf "  ael approve <event-id>  Approve a stalled action\n" [];
   Printf "  ael reject <event-id>   Reject a stalled action\n" []].

Definition sayAll (lines : list Printed) (k : Run) : Run :=
  fold_right say k lines.

(** [verifyCommand] of the command line tool. *)
Definition verifyCommand (env : Env) : Run :=
  match NewDB env with
  | Some err => fatal "Failed to open database: %v" err
  | None =>
    match NewSigner env with
    | Some err => fatal "Failed to load signer: %v" err
    | None =>
      match GetRunID env with
      | Err err => fatal "Failed to get run ID: %v" err
      | Ok runID =>
        if bool_decide (runID = "") then
          say (Printf "No runs found in database\n" []) (stop Returns true)
        else
          match slice runID 8 with
          | None => stop Panics true
          | Some shown =>
            say (Printf "Verifying chain for run: %s\n" [AStr shown])
              match VerifyChain env runID with
              | Err err => fatal "Verification error: %v" err
              | Ok result =>
                if Valid result then
                  say (Printf "✓ Chain is valid (%d events verified)\n"
                         [AInt (TotalEvents result)])
                    (stop Returns true)
                else reportFailure "✗ Chain verification failed\n" result
              end
          end
      end
    end
  end.

(** [statusCommand] *)
Definition statusCommand (env : Env) : Run :=
  match NewDB env with
  | Some err => fatal "Failed to open database: %v" err
  | None =>
    match GetRunID env with
    | Err err => fatal "Failed to get run ID: %v" err
    | Ok runID =>
      if bool_decide (runID = "") then
        say (Printf "No runs found in database\n" []) (stop Returns true)
      else
        match GetRunInfo env runID with
        | Err err => fatal "Failed to get run info: %v" err
        | Ok (agentName, genesisHash, pubKey) =>
          say (Printf "Current Run Status\n" [])
            (say (Printf "==================\n" [])
               match slice runID 8 with
               | None => stop Panics true
               | Some shown =>
                 say (Printf "Run ID:       %s\n" [AStr shown])
                   (say (Printf "Agent:        %s\n" [AStr agentName])
                      match slice genesisHash 16 with
                      | None => stop Panics true
                      | Some hash =>
                        say (Printf "Genesis Hash: %s\n" [AStr (hash ++ "...")])
                          match slice pubKey 32 with
                          | None => stop Panics true
                          | Some key =>
                            say (Printf "Public Key:   %s\n" [AStr (key ++ "...")])
                              (stop Returns true)
                          end
                      end)
               end)
        end
    end
  end.

(** The loop of [eventsCommand], entered with [i = n - 1]. *)
Fixpoint eventsLoop (events : list StoredEvent) (n : nat) : Run :=
  match n with
  | O => stop Returns true
  | S i =>
    match events !! i with
    | None => stop Panics true
    | Some e =>
      match slice (StoredID e) 8 with
      | None => stop Panics true
      | Some shown =>
        say (Printf "[%d] %s | %s | %s\n"
               [AInt (SeqIndex e); AStr shown; AStr (StoredType e);
                AStr (StoredMethod e)])
          (if StoredBlocked e
           then say (Printf "    BLOCKED\n" []) (eventsLoop events i)
           else eventsLoop events i)
      end
    end
  end.

(** [eventsCommand].  [flags] is what becomes of
    [eventsFlags.Parse(os.Args[2:])], the value being that of [--limit]. *)
Definition eventsCommand (flags : Parse Z) (env : Env) : Run :=
  match flags with
  | NoArguments => stop Panics false
  | ParseHelp => stop (Exits 0) false
  | ParseFailed => stop (Exits 2) false
  | Parsed limit =>
  match NewDB env with
  | Some err => fatal "Failed to open database: %v" err
  | None =>
    match GetRunID env with
    | Err err => fatal "Failed to get run ID: %v" err
    | Ok runID =>
      if bool_decide (runID = "") then
        say (Printf "No runs found in database\n" []) (stop Returns true)
      else
        match GetRecentEvents env runID limit with
        | Err err => fatal "Failed to get events: %v" err
        | Ok events =>
          say (Printf "Recent Events (showing %d)\n"
                 [AInt (Z.of_nat (List.length events))])
            (say (Printf "===========================\n" [])
               (eventsLoop events (List.length events)))
        end
    end
  end
  end.

(** [approveCommand]; [args] is [os.Args]. *)
Definition approveCommand (args : list string) : Run :=
  match args !! 2%nat with
  | None =>
    say (Printf "Usage: ael approve <event-id>\n" []) (stop (Exits 1) false)
  | Some eventID =>
    say (Printf "Approving event: %s\n" [AStr eventID])
      (say (Printf "Note: HTTP approval endpoint not yet implemented\n" [])
         (say (Printf "Use the proxy's stdin for now (press Enter)\n" [])
            (stop Returns false)))
  end.

(** [rejectCommand] *)
Definition rejectCommand (args : list string) : Run :=
  match args !! 2%nat with
  | None =>
    say (Printf "Usage: ael reject <event-id>\n" []) (stop (Exits 1) false)
  | Some eventID =>
    say (Printf "Rejecting event: %s\n" [AStr eventID])
      (say (Printf "Note: HTTP rejection endpoint not yet implemented\n" [])
         (stop Returns false))
  end.

(** [main] of the command line tool.  [flags] is what becomes of the
    flag parsing of [eventsCommand], should that command run. *)
Definition main (args : list string) (flags : Parse Z) (env : Env) : Run :=
  match args !! 1%nat with
  | None => sayAll printUsage (stop (Exits 1) false)
  | Some command =>
    if bool_decide (command = "verify") then verifyCommand env
    else if bool_decide (command = "status") then statusCommand env
    else if bool_decide (command = "events") then eventsCommand flags env
    else if bool_decide (command = "approve") then approveCommand args
    else if bool_decide (command = "reject") then rejectCommand args
    else
      say (Printf "Unknown command: %s\n" [AStr command])
        (sayAll printUsage (stop (Exits 1) false))
  end.

(** The lines [eventsCommand] prints for one event. *)
Definition eventLines (e : StoredEvent) : list Printed :=
  match slice (StoredID e) 8 with
  | None => []
  | Some shown =>
    Printf "[%d] %s | %s | %s\n"
      [AInt (SeqIndex e); AStr shown; AStr (StoredType e); AStr (StoredMethod e)]
    :: (if StoredBlocked e then [Printf "    BLOCKED\n" []] else [])
  end.

End Cli.

(** ** A store for the command line tools *)

Module CliScenario.
Import Cli.

Definition runA : string := "3f2a9c1e-77aa-4c55-9d0e-0123456789ab".

Definition genesisA : string :=
  "9b74c9897bac770ffc029102a200c5de0b1b6a3f2d6c1e8a4f5d7c9e1a2b3c4d".

Definition keyA : string :=
  "d75a980182b10ab7d54bfed3c964073a0ee172f3daa62325af021a68f707511a".

Definition eventsA : list StoredEvent :=
  [ {| SeqIndex := 3; StoredID := "0c1d2e3f-0003"; StoredType := "tool_response";
       StoredMethod := ""; StoredBlocked := false |};
    {| SeqIndex := 2; StoredID := "8a9b0c1d-0002"; StoredType := "blocked";
       StoredMethod := "db.drop_root"; StoredBlocked := true |};
    {| SeqIndex := 1; StoredID := "4e5f6a7b-0001"; StoredType := "tool_call";
       StoredMethod := "fs.read"; StoredBlocked := false |} ].

(** A store that opens and holds one run of three events; [chain] is
    what the chain verification finds, and the anchor service is out of
    reach. *)
Definition storeA (chain : ChainResult) : Env :=
  {| NewDB := None; NewSigner := None; GetRunID := Ok runA;
     VerifyChain := fun _ => Ok chain;
     VerifyAnchors := fun _ => Err "no route to host";
     GetRunInfo := fun _ => Ok ("agent-7", genesisA, keyA);
     GetRecentEvents := fun _ limit => Ok (take (Z.to_nat limit) eventsA) |}.

Definition chainGood : ChainResult :=
  {| Valid := true; TotalEvents := 3; ErrorMessage := ""; FailedAtSeq := 0 |}.

Definition chainBroken : ChainResult :=
  {| Valid := false; TotalEvents := 3; ErrorMessage := "hash mismatch";
     FailedAtSeq := 2 |}.

(** An anchor check that finds a mismatch. *)
Definition anchorsBad (_ : string) : Fallible AnchorResult :=
  Ok {| AnchorsValid := false; AnchorsChecked := 1;
        AnchorError := "block hash differs" |}.

End CliScenario.

(** * Properties *)

(** ** The policy scan *)

Section PolicyScan.
Context `{W : World}.

(** Since the conditions do not depend on the pattern, going on with the
    next pattern after a failed check never finds anything: the inner
    loop tells whether the rule applies. *)
Lemma scanPatterns_applies rule patterns method params :
  scanPatterns rule patterns method params
  = existsb (fun pattern => MatchPattern pattern method) patterns
    && match Conditions rule with
       | Some conds => CheckConditions conds params
       | None => true
       end.
Proof.
  induction patterns as [|pattern rest IH]; simpl; [done|].
  destruct (MatchPattern pattern method); simpl; [|exact IH].
  destruct (Conditions rule) as [conds|]; [|done].
  destruct (CheckConditions conds params) eqn:Hc; simpl; [done|].
  rewrite IH. apply andb_false_r.
Qed.

Lemma scanRules_firstStall rules method params :
  scanRules rules method params
  = match firstStall rules method params with
    | Some rule => (true, Some rule)
    | None => (false, None)
    end.
Proof.
  unfold firstStall.
  induction rules as [|rule rest IH]; simpl; [done|].
  rewrite scanPatterns_applies. fold (ruleApplies method params rule).
  destruct (decide (Action rule = "stall")) as [Hs|Hs].
  - rewrite (bool_decide_eq_false_2 (Action rule <> "stall")) by tauto.
    rewrite (bool_decide_eq_true_2 _ Hs). simpl.
    destruct (ruleApplies method params rule); [done|exact IH].
  - rewrite (bool_decide_eq_true_2 (Action rule <> "stall")) by done.
    rewrite (bool_decide_eq_false_2 _ Hs). simpl. exact IH.
Qed.

(** What [List.find] returns is the first element that passes. *)
Lemma find_first {A} (f : A -> bool) (l : list A) (x : A) :
  List.find f l = Some x <->
  exists before after,
    l = (before ++ x :: after)%list /\ f x = true /\
    Forall (fun y => f y = false) before.
Proof.
  induction l as [|y l IH]; simpl.
  - split; [done|]. intros (before & after & Hl & _). by destruct before.
  - destruct (f y) eqn:Hy.
    + split.
      * intros [= ->]. exists [], l. by repeat split.
      * intros ([|z before] & after & Hl & Hx & Hall).
        -- by injection Hl as -> _.
        -- injection Hl as -> _. apply Forall_cons in Hall as [Hz _]. congruence.
    + rewrite IH. split.
      * intros (before & after & -> & Hx & Hall).
        exists (y :: before), after. repeat split; [done|]. by constructor.
      * intros ([|z before] & after & Hl & Hx & Hall).
        -- injection Hl as -> _. congruence.
        -- injection Hl as -> ->. apply Forall_cons in Hall as [_ Hall].
           by exists before, after.
Qed.

Lemma find_none {A} (f : A -> bool) (l : list A) :
  List.find f l = None <-> Forall (fun y => f y = false) l.
Proof.
  induction l as [|y l IH]; simpl; [by split; [constructor|]|].
  destruct (f y) eqn:Hy.
  - split; [done|]. intros [Hy' _]%Forall_cons. congruence.
  - rewrite IH. split; [by constructor|by intros [_ ?]%Forall_cons].
Qed.

(** C2, as the code has it: the decision of [evaluatePolicy] on a
    non-empty method is the first rule, in declaration order, whose
    action is [stall] and that applies to the call (one of its patterns
    matches the method and its conditions, if any, hold over the params);
    rules with any other action are passed over.  When there is no such
    rule the call is not stalled and no rule is returned, so nothing is
    redacted. *)
Theorem decision_is_first_stall_rule (v : VouchProxy) (pol : PolicyConfig)
    (method : string) (params : option JMap) :
  policy v = Some pol -> method <> "" ->
  evaluatePolicy v method params
  = Ok (match firstStall (Policies pol) method params with
        | Some rule => (true, Some rule)
        | None => (false, None)
        end)
  /\ (forall rule,
        firstStall (Policies pol) method params = Some rule <->
        exists before after,
          Policies pol = (before ++ rule :: after)%list /\
          Action rule = "stall" /\ ruleApplies method params rule = true /\
          Forall (fun r => Action r <> "stall" \/ ruleApplies method params r = false)
                 before)
  /\ (firstStall (Policies pol) method params = None <->
        Forall (fun r => Action r <> "stall" \/ ruleApplies method params r = false)
               (Policies pol)).
Proof.
  intros Hpol Hm.
  assert (Hpass : forall r,
    bool_decide (Action r = "stall") && ruleApplies method params r = false
    <-> Action r <> "stall" \/ ruleApplies method params r = false).
  { intros r. rewrite andb_false_iff, bool_decide_eq_false. tauto. }
  split; [|split].
  - unfold evaluatePolicy, shouldStallMethod.
    rewrite (bool_decide_eq_false_2 _ Hm). simpl. rewrite Hpol.
    by rewrite scanRules_firstStall.
  - intros rule. unfold firstStall. rewrite find_first.
    split; intros (before & after & Hl & Hx & Hall); exists before, after.
    + apply andb_true_iff in Hx as [Hs%bool_decide_eq_true Ha].
      repeat split; try done. eapply Forall_impl; [exact Hall|].
      intros r Hr. by apply Hpass.
    + destruct Hall as (Ha & Hb). repeat split; try done.
      * by rewrite Ha, (bool_decide_eq_true_2 _ Hx).
      * eapply Forall_impl; [exact Hb|]. intros r Hr. by apply Hpass.
  - unfold firstStall. rewrite find_none.
    split; intros Hall; (eapply Forall_impl; [exact Hall|]); intros r Hr;
      by apply Hpass.
Qed.

End PolicyScan.

(** ** The request path *)

Section RequestPath.
Context `{W : World}.

Lemma ledger_sendErrorResponse v statusCode code message :
  ledger (sendErrorResponse v statusCode code message) = ledger v.
Proof. reflexivity. Qed.

Lemma issuedError_sendErrorResponse v statusCode code message :
  issuedError v (sendErrorResponse v statusCode code message) code message.
Proof. eexists. split; reflexivity. Qed.

Lemma shouldRedact_elem_of k keys : shouldRedact k keys = true <-> k ∈ keys.
Proof.
  induction keys as [|key rest IH]; simpl.
  - split; [done|]. by intros ?%elem_of_nil.
  - rewrite elem_of_cons. case_bool_decide; [tauto|]. rewrite IH. tauto.
Qed.

(** The map [redactParams] builds, key by key. *)
Lemma redactParams_lookup (kv : JMap) (keys : list string) (k : string) :
  redactParams (Some kv) keys !! k
  = (fun v => if shouldRedact k keys then JString "[REDACTED]" else v) <$> kv !! k.
Proof.
  unfold redactParams.
  apply (map_fold_weak_ind (fun (r m : JMap) =>
    r !! k = (fun v => if shouldRedact k keys then JString "[REDACTED]" else v)
             <$> m !! k)).
  - by rewrite !lookup_empty.
  - intros i x m r Hi IH.
    destruct (decide (i = k)) as [->|Hne].
    + rewrite lookup_insert_eq. simpl.
      destruct (shouldRedact k keys); by rewrite lookup_insert_eq.
    + rewrite (lookup_insert_ne m) by done. rewrite <- IH.
      destruct (shouldRedact i keys); by rewrite lookup_insert_ne.
Qed.

Lemma redactParams_nil keys k : redactParams None keys !! k = None.
Proof. apply lookup_empty. Qed.

(** What [extractTaskMetadata] has checked when it succeeds. *)
Lemma extractTaskMetadata_Ok body mcpReq taskID taskState :
  extractTaskMetadata body = Ok (mcpReq, taskID, taskState) ->
  UnmarshalRequest body = Ok mcpReq /\ Method mcpReq <> "" /\
  taskID = default "" (asString (index (ReqParams mcpReq) "task_id")) /\
  taskState = "working" /\ 0 < len body < 5 * 1024 * 1024 /\ len taskID <= 64.
Proof.
  unfold extractTaskMetadata.
  destruct (0 <? len body) eqn:H0; [|discriminate].
  destruct (len body <? 5 * 1024 * 1024) eqn:H1; [|discriminate].
  simpl. destruct (UnmarshalRequest body) as [m|e]; [|discriminate].
  case_bool_decide as Hm; [discriminate|]. simpl.
  apply Z.ltb_lt in H0, H1.
  case_bool_decide as Ht.
  - intros [= <- <- <-]. rewrite Ht. repeat split; first [done | by vm_compute].
  - destruct (len _ <=? 64) eqn:H2; [|discriminate]. simpl.
    intros [= <- <- <-]. apply Z.leb_le in H2. by repeat split.
Qed.

(** The one event [submitToolCallEvent] hands to the ledger. *)
Lemma submitToolCallEvent_event v taskID taskState mcpReq matchedRule :
  exists e,
    ledger (submitToolCallEvent v taskID taskState mcpReq matchedRule)
    = (ledger v ++ [e])%list /\
    draws (submitToolCallEvent v taskID taskState mcpReq matchedRule) = S (draws v) /\
    EvID e = uuid8 (draws v) /\ EventType e = "tool_call" /\
    TaskID e = taskID /\ TaskState e = taskState /\ EvMethod e = Method mcpReq /\
    Params e = toolCallParams mcpReq matchedRule /\
    ParentID e = (if bool_decide (taskID = "") then ""
                  else default "" (lastEventByTask v !! taskID)) /\
    lastEventByTask (submitToolCallEvent v taskID taskState mcpReq matchedRule)
    = (if bool_decide (taskID = "") then lastEventByTask v
       else <[taskID := EvID e]> (lastEventByTask v)).
Proof.
  unfold submitToolCallEvent, toolCallParams.
  case_bool_decide as Ht.
  - destruct matchedRule as [rule|]; eexists; repeat split; reflexivity.
  - destruct matchedRule as [rule|];
      (destruct (lastEventByTask (drawn v) !! taskID) as [parent|] eqn:Hp;
       simpl in Hp; rewrite Hp; eexists; repeat split; reflexivity).
Qed.

(** What has happened when [interceptRequest] parks a request. *)
Lemma interceptRequest_Blocked v req v' out p :
  interceptRequest v req = (v', out, Blocked p) ->
  HttpMethod req = "POST" /\ readErr (Body req) = None /\
  out = withBody req (NopCloser (data (Body req))) /\ p_req p = out /\
  extractTaskMetadata (data (Body req)) = Ok (p_mcpReq p, p_taskID p, p_taskState p) /\
  IsHealthy (worker v) = true /\
  evaluatePolicy v (Method (p_mcpReq p)) (ReqParams (p_mcpReq p))
  = Ok (true, Some (p_rule p)) /\
  handleStall v (p_taskID p) (p_taskState p) (p_mcpReq p) (Some (p_rule p))
  = Ok (v', p_eventID p, p_chan p).
Proof.
  unfold interceptRequest.
  case_bool_decide as Hpost; [discriminate|].
  unfold ReadAll. destruct (readErr (Body req)) as [err|] eqn:Hread; [discriminate|].
  destruct (extractTaskMetadata _) as [[[m t] s]|e] eqn:Hmeta; [|discriminate].
  destruct (IsHealthy (worker v)) eqn:Hh; [|discriminate]. simpl.
  destruct (evaluatePolicy _ _ _) as [[stall r]|e] eqn:Hev; [|discriminate].
  destruct stall; [|discriminate].
  destruct r as [rule|]; [|discriminate].
  destruct (handleStall _ _ _ _ _) as [[[v1 id] c]|e] eqn:Hst; [|discriminate].
  intros [= <- <- <-]. simpl. by repeat split.
Qed.

(** C1, as the code has it: while the worker is unhealthy no request and
    no response adds an event to the ledger and no request is stalled;
    a POST request whose body is read and passes [extractTaskMetadata]
    ends at the health check, where [sendErrorResponse] is called with
    status 503, code -32000 and the message "Ledger Storage Failure", and
    nothing else of the proxy changes.  A request stopped by an earlier
    guard never reaches the health check: a request that is not a POST
    passes without any error response, and a POST request whose body
    fails [extractTaskMetadata] gets the error of that guard, with status
    400. *)
Theorem unhealthy_request_gated (v : VouchProxy) (req : Request) :
  IsHealthy (worker v) = false ->
  ledger (interceptRequest v req).1.1 = ledger v
  /\ (interceptRequest v req).2 = Returned
  /\ (forall resp, ledger (interceptResponse v resp).1.1 = ledger v)
  /\ (HttpMethod req = "POST" -> readErr (Body req) = None ->
      forall mcpReq taskID taskState,
        extractTaskMetadata (data (Body req)) = Ok (mcpReq, taskID, taskState) ->
        interceptRequest v req
        = (sendErrorResponse v StatusServiceUnavailable (-32000)
             "Ledger Storage Failure",
           withBody req (NopCloser (data (Body req))), Returned))
  /\ (HttpMethod req <> "POST" -> interceptRequest v req = (v, req, Returned))
  /\ (HttpMethod req = "POST" -> readErr (Body req) = None ->
      forall e,
        extractTaskMetadata (data (Body req)) = Err e ->
        interceptRequest v req
        = (sendErrorResponse v StatusBadRequest (-32000) e,
           withBody req (NopCloser (data (Body req))), Returned)).
Proof.
  intros Hh.
  assert (Hreq : ledger (interceptRequest v req).1.1 = ledger v
                 /\ (interceptRequest v req).2 = Returned).
  { unfold interceptRequest. case_bool_decide; [done|].
    unfold ReadAll. destruct (readErr (Body req)); [done|].
    destruct (extractTaskMetadata _) as [[[m t] s]|e]; [|done].
    by rewrite Hh. }
  destruct Hreq as [Hl Hr]. repeat split; try done.
  - intros resp. unfold interceptResponse, ReadAll.
    destruct (readErr (RespBody resp)); [done|].
    destruct (UnmarshalResponse _); [|done]. by rewrite Hh.
  - intros Hpost Hread m t s Hmeta. unfold interceptRequest, ReadAll.
    rewrite (bool_decide_eq_false_2 (HttpMethod req <> "POST")) by tauto.
    by rewrite Hread, Hmeta, Hh.
  - intros Hm. unfold interceptRequest. by rewrite (bool_decide_eq_true_2 _ Hm).
  - intros Hpost Hread e Hmeta. unfold interceptRequest, ReadAll.
    rewrite (bool_decide_eq_false_2 (HttpMethod req <> "POST")) by tauto.
    by rewrite Hread, Hmeta.
Qed.

(** C7, as the code has it: a request that is not a POST is not
    inspected: the interceptor returns at once and leaves the proxy and
    the request as they were.  For a POST request whose body is read and
    is 5 MiB or larger, [sendErrorResponse] is called with status 400 and
    code -32000, and nothing else of the proxy changes. *)
Theorem guard_rejections (v : VouchProxy) (req : Request) :
  (HttpMethod req <> "POST" -> interceptRequest v req = (v, req, Returned))
  /\ (HttpMethod req = "POST" -> readErr (Body req) = None ->
      5 * 1024 * 1024 <= len (data (Body req)) ->
      exists message,
        interceptRequest v req
        = (sendErrorResponse v StatusBadRequest (-32000) message,
           withBody req (NopCloser (data (Body req))), Returned)).
Proof.
  split.
  - intros Hm. unfold interceptRequest. by rewrite (bool_decide_eq_true_2 _ Hm).
  - intros Hpost Hread Hbig. unfold interceptRequest, ReadAll.
    rewrite (bool_decide_eq_false_2 (HttpMethod req <> "POST")) by tauto.
    rewrite Hread. unfold extractTaskMetadata.
    destruct (0 <? len (data (Body req))) eqn:H0; simpl; [|by eexists].
    assert (Hlt : (len (data (Body req)) <? 5 * 1024 * 1024) = false)
      by (apply Z.ltb_nlt; lia).
    rewrite Hlt. by eexists.
Qed.

End RequestPath.

(** ** Stalls *)

Section Stalls.
Context `{W : World}.

Lemma receive_frame v c : exists cs r, receive v c = (setChans cs v, r).
Proof.
  unfold receive, setChan.
  destruct (chans v !! c) as [ch|]; [|exists (chans v); by destruct v; eexists].
  destruct (receiver ch) as [| |b]; [destruct (buffer ch)| |]; try by do 2 eexists.
  exists (chans v). destruct v. by eexists.
Qed.

Lemma receive_arrived v c b :
  arrived v c b -> exists cs, receive v c = (setChans cs v, Some b).
Proof.
  intros (ch & Hch & [Hh|[Ha Hb]]); unfold receive, setChan; rewrite Hch.
  - rewrite Hh. by eexists.
  - rewrite Ha, Hb. by eexists.
Qed.

Lemma receive_nothing v c :
  nothingArrived v c -> exists cs, receive v c = (setChans cs v, None).
Proof.
  intros (ch & Hch & Hb & [Hr|Hr]); unfold receive, setChan; rewrite Hch, Hr, ?Hb.
  - by eexists.
  - exists (chans v). by destruct v.
Qed.

Lemma trySend_frame v c b v' :
  trySend v c b = Some v' -> exists cs, v' = setChans cs v.
Proof.
  unfold trySend, setChan. destruct (chans v !! c) as [ch|]; [|discriminate].
  destruct (receiver ch), (buffer ch); intros [= <-]; by eexists.
Qed.

(** C9: when a request is stalled, the one event handed to the ledger is
    a [blocked] event whose params are the params of the decoded request
    as they came: every key holds its original value, whatever keys the
    matched rule lists for redaction. *)
Theorem blocked_event_unredacted (v : VouchProxy) (req : Request)
    (v' : VouchProxy) (out : Request) (p : Parked) :
  interceptRequest v req = (v', out, Blocked p) ->
  exists e,
    ledger v' = (ledger v ++ [e])%list /\
    EventType e = "blocked" /\ WasBlocked e = true /\
    EvID e = p_eventID p /\ PolicyID e = ID (p_rule p) /\
    UnmarshalRequest (data (Body req)) = Ok (p_mcpReq p) /\
    Params e = ReqParams (p_mcpReq p) /\
    (forall k, index (Params e) k = index (ReqParams (p_mcpReq p)) k).
Proof.
  intros (_ & _ & _ & _ & Hmeta & _ & _ & Hst)%interceptRequest_Blocked.
  apply extractTaskMetadata_Ok in Hmeta as (Hdec & _).
  unfold handleStall in Hst. injection Hst as <- Hid Hc.
  eexists. repeat split; try reflexivity; done.
Qed.

(** C3, as the code has it: a stall ends only when a value arrives on its
    channel (there is no timeout; while nothing has arrived the request
    stays parked).  When the value is a rejection, [sendErrorResponse] is
    called with status 403, code -32000 and the message "Stall rejected
    or failed"; no event at all is handed to the ledger for it, neither a
    [rejection] nor a [tool_call], and the task maps stay as they were. *)
Theorem rejected_stall_ends_request (v : VouchProxy) (p : Parked) :
  (nothingArrived v (p_chan p) ->
   (interceptRequest_resume v p).2 = None /\
   ledger (interceptRequest_resume v p).1 = ledger v)
  /\ (arrived v (p_chan p) false ->
      exists cs,
        interceptRequest_resume v p
        = (sendErrorResponse (setChans cs v) StatusForbidden (-32000)
             "Stall rejected or failed",
           Some (p_req p, false)))
  /\ (forall out,
        (interceptRequest_resume v p).2 = Some (out, false) ->
        ledger (interceptRequest_resume v p).1 = ledger v /\
        lastEventByTask (interceptRequest_resume v p).1 = lastEventByTask v /\
        activeTasks (interceptRequest_resume v p).1 = activeTasks v).
Proof.
  split; [|split].
  - intros (cs & Hr)%receive_nothing. unfold interceptRequest_resume. by rewrite Hr.
  - intros (cs & Hr)%receive_arrived. unfold interceptRequest_resume. rewrite Hr.
    by exists cs.
  - intros out. unfold interceptRequest_resume.
    destruct (receive_frame v (p_chan p)) as (cs & r & ->).
    by destruct r as [[|]|].
Qed.

(** C4, as the code has it: when a stalled request is approved and the
    rule that stalled it lists redact keys, the [tool_call] event handed
    to the ledger holds "[REDACTED]" at each listed key that the request
    params have, holds nothing at a listed key they do not have, and
    holds the original value at every other key; the request that goes
    on upstream has the body that came in. *)
Theorem redaction_on_approved_stall (v : VouchProxy) (req : Request)
    (v1 : VouchProxy) (out : Request) (p : Parked) (v2 : VouchProxy) :
  interceptRequest v req = (v1, out, Blocked p) ->
  Redact (p_rule p) <> [] ->
  arrived v2 (p_chan p) true ->
  exists v3 e committed,
    interceptRequest_resume v2 p = (v3, Some (out, true)) /\
    ledger v3 = (ledger v2 ++ [e])%list /\
    EventType e = "tool_call" /\ PolicyID e = ID (p_rule p) /\
    UnmarshalRequest (data (Body req)) = Ok (p_mcpReq p) /\
    Params e = Some committed /\
    (forall k, k ∈ Redact (p_rule p) ->
       is_Some (index (ReqParams (p_mcpReq p)) k) ->
       committed !! k = Some (JString "[REDACTED]")) /\
    (forall k, index (ReqParams (p_mcpReq p)) k = None -> committed !! k = None) /\
    (forall k, k ∉ Redact (p_rule p) ->
       committed !! k = index (ReqParams (p_mcpReq p)) k) /\
    Body out = Body req.
Proof.
  intros Hblocked Hredact Hchan.
  pose proof (interceptRequest_Blocked _ _ _ _ _ Hblocked)
    as (_ & Hread & Hout & Hp & Hmeta & _).
  apply extractTaskMetadata_Ok in Hmeta as (Hdec & _).
  unfold interceptRequest_resume.
  destruct (receive_arrived _ _ _ Hchan) as (cs & ->). simpl.
  set (v2' := setChans cs v2).
  destruct (submitToolCallEvent_event v2' (p_taskID p) (p_taskState p)
              (p_mcpReq p) (Some (p_rule p)))
    as (e & Hl & _ & _ & Hty & _ & _ & _ & Hparams & _).
  assert (Hpos : (0 <? Z.of_nat (List.length (Redact (p_rule p)))) = true).
  { apply Z.ltb_lt. destruct (Redact (p_rule p)); [done|]. simpl. lia. }
  simpl in Hparams. rewrite Hpos in Hparams.
  exists (submitToolCallEvent v2' (p_taskID p) (p_taskState p) (p_mcpReq p)
            (Some (p_rule p))), e,
         (redactParams (ReqParams (p_mcpReq p)) (Redact (p_rule p))).
  split; [by rewrite Hp|]. split; [exact Hl|]. split; [exact Hty|].
  split.
  { unfold submitToolCallEvent in Hl.
    revert Hl. case_bool_decide; [|destruct (lastEventByTask _ !! _)];
      simpl; intros Heq; apply app_inj_tail in Heq as [_ <-]; reflexivity. }
  split; [exact Hdec|]. split; [exact Hparams|].
  destruct (ReqParams (p_mcpReq p)) as [kv|] eqn:Hkv; unfold index.
  - repeat split.
    + intros k Hk [x Hx]. rewrite redactParams_lookup, Hx. simpl.
      by rewrite (proj2 (shouldRedact_elem_of k _) Hk).
    + intros k Hk. by rewrite redactParams_lookup, Hk.
    + intros k Hk. rewrite redactParams_lookup.
      destruct (shouldRedact k (Redact (p_rule p))) eqn:Hs.
      * by apply shouldRedact_elem_of in Hs.
      * by destruct (kv !! k).
    + rewrite Hout. destruct req as [m pa [d r]]. simpl in *. by subst r.
  - repeat split; try (by intros; apply redactParams_nil).
    + by intros k _ [x Hx].
    + rewrite Hout. destruct req as [m pa [d r]]. simpl in *. by subst r.
Qed.

End Stalls.

(** ** The task hierarchy *)

Section Hierarchy.
Context `{W : World}.



Lemma unchanged_refl v : unchanged v v.
Proof. by repeat split. Qed.







Lemma handleSignal_unchanged prefix approved done mark v r :
  unchanged v (handleSignal prefix approved done mark v r).1.
Proof.
  unfold handleSignal. case_bool_decide; [by repeat split|].
  destruct (stallSignals v !! _) as [c|]; [|by repeat split].
  destruct (trySend v c approved) as [v'|] eqn:Hs; [|by repeat split].
  by apply trySend_frame in Hs as (cs & ->).
Qed.








End Hierarchy.

(** ** The response path *)

Section ResponsePath.
Context `{W : World}.

Lemma interceptResponse_read_failed v resp err :
  readErr (RespBody resp) = Some err ->
  interceptResponse v resp
  = (v, withRespBody resp (drained (RespBody resp)), Some err).
Proof. intros H. unfold interceptResponse, ReadAll. by rewrite H. Qed.

Lemma interceptResponse_read v resp :
  readErr (RespBody resp) = None ->
  exists v', interceptResponse v resp = (v', resp, None).
Proof.
  intros H.
  assert (Hsame : withRespBody resp (NopCloser (data (RespBody resp))) = resp).
  { destruct resp as [code [d r]]. simpl in *. by subst r. }
  unfold interceptResponse, ReadAll. rewrite H, Hsame.
  destruct (UnmarshalResponse _) as [m|e]; [|by eexists].
  destruct (IsHealthy (worker v)); by eexists.
Qed.

(** C10, as the code has it: whenever [interceptResponse] returns a nil
    error the response it leaves is the one it was given; it returns a
    nil error exactly when the body could be read, and then the body is
    put back as read.  When reading the body fails it returns that error,
    changes nothing in the proxy and puts nothing back: the response is
    left with its reader as the failed read left it.  When the body does
    not decode as a JSON-RPC response nothing in the proxy changes; when
    it decodes and the worker is unhealthy only a log line is written.
    In both cases no event is handed to the ledger. *)
Theorem response_left_unchanged (v : VouchProxy) (resp : HttpResponse) :
  ((interceptResponse v resp).2 = None -> (interceptResponse v resp).1.2 = resp)
  /\ (readErr (RespBody resp) = None ->
      (interceptResponse v resp).2 = None /\
      RespBody (interceptResponse v resp).1.2 = NopCloser (data (RespBody resp)))
  /\ (forall err, readErr (RespBody resp) = Some err ->
        (interceptResponse v resp).2 = Some err /\
        (interceptResponse v resp).1.1 = v /\
        (interceptResponse v resp).1.2
        = withRespBody resp (drained (RespBody resp)))
  /\ (readErr (RespBody resp) = None ->
      forall e, UnmarshalResponse (data (RespBody resp)) = Err e ->
      interceptResponse v resp = (v, resp, None))
  /\ (readErr (RespBody resp) = None ->
      forall mcpResp, UnmarshalResponse (data (RespBody resp)) = Ok mcpResp ->
      IsHealthy (worker v) = false ->
      interceptResponse v resp = (logPrintf LogDroppingResponse v, resp, None) /\
      ledger (interceptResponse v resp).1.1 = ledger v).
Proof.
  split; [|split; [|split; [|split]]].
  - destruct (readErr (RespBody resp)) as [err|] eqn:Hread.
    + by rewrite (interceptResponse_read_failed _ _ _ Hread).
    + by destruct (interceptResponse_read v resp Hread) as (v' & ->).
  - intros Hread. destruct (interceptResponse_read v resp Hread) as (v' & ->).
    simpl. split; [done|]. destruct resp as [code [d r]]. simpl in *. by subst r.
  - intros err Hread. by rewrite (interceptResponse_read_failed _ _ _ Hread).
  - intros Hread e Hdec.
    destruct (interceptResponse_read v resp Hread) as (v' & Heq).
    rewrite Heq. f_equal. f_equal. revert Heq.
    unfold interceptResponse, ReadAll. rewrite Hread, Hdec. by intros [= <-].
  - intros Hread m Hdec Hh.
    destruct (interceptResponse_read v resp Hread) as (v' & Heq).
    rewrite Heq. revert Heq.
    unfold interceptResponse, ReadAll. rewrite Hread, Hdec, Hh. simpl.
    by intros [= <-].
Qed.

(** Whatever [interceptRequest] did before it returned, error response or
    not, the reverse proxy sends the request on, and the client gets the
    upstream's answer whenever its body can be read. *)
Lemma returned_request_is_forwarded (upstream : Request -> HttpResponse)
    v req contentLength v' out :
  contentLength <> 0 ->
  interceptRequest v req = (v', out, Returned) ->
  readErr (RespBody (upstream out)) = None ->
  (serveHTTP upstream v req contentLength).2 = Answered (upstream out).
Proof.
  intros Hlen Hreq Hread. unfold serveHTTP, roundTrip.
  rewrite (proj2 (Z.eqb_neq _ _) Hlen). cbn [andb]. rewrite Hreq.
  by destruct (interceptResponse_read v' (upstream out) Hread) as (v'' & ->).
Qed.

End ResponsePath.

(** ** The control API *)

Section ControlAPI.
Context `{W : World}.

Lemma stripPrefix_app prefix s : stripPrefix (prefix ++ s) prefix = Some s.
Proof.
  induction prefix as [|c prefix IH]; simpl; [done|].
  by rewrite Ascii.eqb_refl.
Qed.

Lemma TrimPrefix_app prefix s : TrimPrefix (prefix ++ s) prefix = s.
Proof. unfold TrimPrefix. by rewrite stripPrefix_app. Qed.

(** C5, as the code has it: [handleRekey] hands no event to the ledger;
    when the rotation succeeds it answers 200 with a text that names the
    old and the new public key, and when it fails it answers 500. *)
Theorem rekey_answers_without_event (v : VouchProxy)
    (rotated : Fallible (string * string)) :
  ledger (handleRekey v rotated).1 = ledger v
  /\ (forall oldPubKey newPubKey,
        rotated = Ok (oldPubKey, newPubKey) ->
        (handleRekey v rotated).2
        = {| status := StatusOK;
             text := "Key rotated successfully" ++ nl ++ "Old: " ++ oldPubKey
                     ++ nl ++ "New: " ++ newPubKey |})
  /\ (forall err,
        rotated = Err err ->
        status (handleRekey v rotated).2 = StatusInternalServerError /\
        (handleRekey v rotated).1 = v).
Proof.
  split; [by destruct rotated as [[o n]|e]|].
  split; [by intros o n ->|by intros e ->].
Qed.

(** The three answers of a signal to a well-formed path. *)
Lemma handleApprove_answers v eventID :
  eventID <> "" ->
  handleApprove v {| HttpMethod := "POST"; Path := "/api/approve/" ++ eventID;
                     Body := NopCloser "" |}
  = match stallSignals v !! eventID with
    | None => (v, httpError "Event not found or already processed" StatusNotFound)
    | Some c =>
      match trySend v c true with
      | Some v' =>
        (logPrintf (LogApproved eventID) v',
         {| status := StatusOK; text := "Event approved" ++ nl |})
      | None => (v, httpError "Event already processed" StatusConflict)
      end
    end.
Proof.
  intros Hid. unfold handleApprove, handleSignal.
  cbn [Path]. by rewrite TrimPrefix_app, (bool_decide_eq_false_2 _ Hid).
Qed.

Lemma handleSignal_stallSignals prefix approved done mark v r :
  stallSignals (handleSignal prefix approved done mark v r).1 = stallSignals v.
Proof.
  unfold handleSignal. case_bool_decide; [done|].
  destruct (stallSignals v !! _) as [c|]; [|done].
  destruct (trySend v c approved) as [v'|] eqn:Hs; [|done].
  by apply trySend_frame in Hs as (cs & ->).
Qed.

Lemma interceptRequest_stallSignals v req eventID :
  is_Some (stallSignals v !! eventID) ->
  is_Some (stallSignals (interceptRequest v req).1.1 !! eventID).
Proof.
  intros Hreg. unfold interceptRequest.
  case_bool_decide; [done|].
  unfold ReadAll. destruct (readErr (Body req)); [done|].
  destruct (extractTaskMetadata _) as [[[m t] s]|e]; [|done].
  destruct (IsHealthy (worker v)); [|done]. simpl.
  destruct (evaluatePolicy _ _ _) as [[stall r]|e]; [|done].
  destruct stall.
  - destruct r as [rule|]; [|done]. simpl.
    destruct (decide (nextID v = eventID)) as [->|Hne].
    + rewrite lookup_insert_eq. by eexists.
    + by rewrite lookup_insert_ne.
  - unfold submitToolCallEvent. case_bool_decide; [done|].
    by destruct (lastEventByTask _ !! _).
Qed.

Lemma setChans_stallSignals c v : stallSignals (setChans c v) = stallSignals v.
Proof. reflexivity. Qed.

(** No step of the process takes an event id out of the registry. *)
Lemma step_stallSignals v op eventID :
  is_Some (stallSignals v !! eventID) ->
  is_Some (stallSignals (step v op) !! eventID).
Proof.
  intros Hreg.
  destruct op as [req|p|p|resp|r|r|rotated|healthy| |l|b|t i|t s|i|c|c b];
    simpl; try done.
  - by apply interceptRequest_stallSignals.
  - unfold interceptRequest_resume.
    destruct (receive_frame v (p_chan p)) as (cs & res & ->).
    destruct res as [[|]|]; simpl; [|done..].
    unfold submitToolCallEvent. case_bool_decide; [done|].
    by destruct (lastEventByTask _ !! _).
  - unfold stdinSignal.
    destruct (stallSignals v !! p_eventID p); [|done].
    destruct (trySend v (p_chan p) true) as [v'|] eqn:Hs; [|done].
    by apply trySend_frame in Hs as (cs & ->).
  - unfold interceptResponse, ReadAll.
    destruct (readErr (RespBody resp)); [done|].
    destruct (UnmarshalResponse _) as [m|e]; [|done].
    destruct (IsHealthy (worker v)); [|done]. simpl.
    destruct (asString (index (Result m) "state")); [case_bool_decide|]; done.
  - unfold handleApprove. by rewrite handleSignal_stallSignals.
  - unfold handleReject. by rewrite handleSignal_stallSignals.
  - by destruct rotated as [[o n]|e].
  - destruct (decide (i = eventID)) as [->|Hne].
    + rewrite lookup_insert_eq. by eexists.
    + by rewrite lookup_insert_ne.
  - by destruct (receive_frame v c) as (cs & res & ->).
  - destruct (trySend v c b) as [v'|] eqn:Hs; [|done].
    by apply trySend_frame in Hs as (cs & ->).
Qed.

Lemma run_stallSignals ops v eventID :
  is_Some (stallSignals v !! eventID) ->
  is_Some (stallSignals (run ops v) !! eventID).
Proof.
  revert v. induction ops as [|op ops IH]; intros v Hreg; [done|].
  by apply IH, step_stallSignals.
Qed.

(** Once an event id is registered, no later signal for it is answered
    with 404, whatever happened in between. *)
Lemma registered_never_not_found ops v eventID :
  eventID <> "" ->
  is_Some (stallSignals v !! eventID) ->
  status (handleApprove (run ops v)
            {| HttpMethod := "POST"; Path := "/api/approve/" ++ eventID;
               Body := NopCloser "" |}).2
  <> StatusNotFound.
Proof.
  intros Hid [c Hc]%(run_stallSignals ops).
  rewrite (handleApprove_answers (run ops v) eventID Hid), Hc.
  by destruct (trySend (run ops v) c true).
Qed.

End ControlAPI.

(** ** What a request leaves behind *)

Section Recording.
Context `{W : World}.

(** The event [submitToolCallEvent] builds when no rule is given. *)
Lemma submitToolCallEvent_unmatched v taskID taskState mcpReq :
  exists e,
    ledger (submitToolCallEvent v taskID taskState mcpReq None)
    = (ledger v ++ [e])%list /\
    EvID e = uuid8 (draws v) /\ EventType e = "tool_call" /\
    EvMethod e = Method mcpReq /\ Params e = ReqParams mcpReq /\
    Response e = None /\ TaskID e = taskID /\ TaskState e = taskState /\
    PolicyID e = "" /\ EvRiskLevel e = "" /\ WasBlocked e = false /\
    ParentID e = (if bool_decide (taskID = "") then ""
                  else default "" (lastEventByTask v !! taskID)).
Proof.
  unfold submitToolCallEvent. case_bool_decide as Ht.
  - eexists. repeat split; reflexivity.
  - destruct (lastEventByTask (drawn v) !! taskID) as [parent|] eqn:Hp;
      simpl in Hp; rewrite Hp; eexists; repeat split; reflexivity.
Qed.

Lemma submitToolCallEvent_frame v taskID taskState mcpReq matchedRule :
  stallSignals (submitToolCallEvent v taskID taskState mcpReq matchedRule)
  = stallSignals v /\
  chans (submitToolCallEvent v taskID taskState mcpReq matchedRule) = chans v /\
  logs (submitToolCallEvent v taskID taskState mcpReq matchedRule) = logs v /\
  policy (submitToolCallEvent v taskID taskState mcpReq matchedRule) = policy v /\
  IsHealthy (worker (submitToolCallEvent v taskID taskState mcpReq matchedRule))
  = IsHealthy (worker v) /\
  activeTasks (submitToolCallEvent v taskID taskState mcpReq matchedRule)
  = (if bool_decide (taskID = "") then activeTasks v
     else <[taskID := taskState]> (activeTasks v)).
Proof.
  unfold submitToolCallEvent. case_bool_decide; [by destruct matchedRule|].
  by destruct matchedRule, (lastEventByTask _ !! _).
Qed.

(** The first guards of [interceptRequest], passed. *)
Lemma interceptRequest_guarded v req mcpReq taskID taskState :
  HttpMethod req = "POST" -> readErr (Body req) = None ->
  extractTaskMetadata (data (Body req)) = Ok (mcpReq, taskID, taskState) ->
  IsHealthy (worker v) = true ->
  interceptRequest v req
  = let out := withBody req (NopCloser (data (Body req))) in
    match evaluatePolicy v (Method mcpReq) (ReqParams mcpReq) with
    | Err _ =>
      (sendErrorResponse v StatusBadRequest (-32000) "Policy violation", out, Returned)
    | Ok (shouldStall, matchedRule) =>
      if shouldStall then
        match handleStall v taskID taskState mcpReq matchedRule, matchedRule with
        | Ok (v', eventID, c), Some rule =>
          (v', out,
           Blocked {| p_req := out; p_taskID := taskID; p_taskState := taskState;
                      p_mcpReq := mcpReq; p_rule := rule; p_eventID := eventID;
                      p_chan := c |})
        | _, _ =>
          (sendErrorResponse v StatusForbidden (-32000) "Stall rejected or failed",
           out, Returned)
        end
      else (submitToolCallEvent v taskID taskState mcpReq matchedRule, out, Returned)
    end.
Proof.
  intros Hpost Hread Hmeta Hh. unfold interceptRequest, ReadAll.
  rewrite (bool_decide_eq_false_2 (HttpMethod req <> "POST")) by tauto.
  by rewrite Hread, Hmeta, Hh.
Qed.

Lemma evaluatePolicy_firstStall v pol method params :
  policy v = Some pol -> method <> "" ->
  evaluatePolicy v method params
  = Ok (match firstStall (Policies pol) method params with
        | Some rule => (true, Some rule)
        | None => (false, None)
        end).
Proof.
  intros Hpol Hm. unfold evaluatePolicy, shouldStallMethod.
  rewrite (bool_decide_eq_false_2 _ Hm). simpl. rewrite Hpol.
  by rewrite scanRules_firstStall.
Qed.

(** X1: a request that passes the guards and that no stall rule applies
    to is recorded at once and never parked: exactly one [tool_call]
    event is handed to the ledger, with the params as they were sent (a
    redact list of a rule that does not stall is not applied), without
    policy id or risk level, in task state [working], and with the parent
    the last-event map holds for its task.  The body is put back for the
    upstream, and neither the registry of stalls nor any channel is
    touched. *)
Theorem unstalled_request_recorded (v : VouchProxy) (req : Request)
    (pol : PolicyConfig) (mcpReq : MCPRequest) (taskID taskState : string) :
  HttpMethod req = "POST" -> readErr (Body req) = None ->
  extractTaskMetadata (data (Body req)) = Ok (mcpReq, taskID, taskState) ->
  IsHealthy (worker v) = true -> policy v = Some pol ->
  firstStall (Policies pol) (Method mcpReq) (ReqParams mcpReq) = None ->
  exists v' e,
    interceptRequest v req = (v', req, Returned) /\
    ledger v' = (ledger v ++ [e])%list /\
    EventType e = "tool_call" /\ EvMethod e = Method mcpReq /\
    Params e = ReqParams mcpReq /\ PolicyID e = "" /\ EvRiskLevel e = "" /\
    WasBlocked e = false /\ TaskID e = taskID /\ TaskState e = "working" /\
    ParentID e = (if bool_decide (taskID = "") then ""
                  else default "" (lastEventByTask v !! taskID)) /\
    stallSignals v' = stallSignals v /\ chans v' = chans v /\ logs v' = logs v.
Proof.
  intros Hpost Hread Hmeta Hh Hpol Hnone.
  pose proof (extractTaskMetadata_Ok _ _ _ _ Hmeta) as (_ & Hm & _ & -> & _).
  rewrite (interceptRequest_guarded _ _ _ _ _ Hpost Hread Hmeta Hh).
  rewrite (evaluatePolicy_firstStall _ _ _ _ Hpol Hm), Hnone. cbn zeta iota.
  destruct (submitToolCallEvent_unmatched v taskID "working" mcpReq)
    as (e & Hl & _ & Hty & Hmeth & Hparams & _ & Htask & Hstate & Hpid & Hrisk
        & Hblocked & Hparent).
  destruct (submitToolCallEvent_frame v taskID "working" mcpReq None)
    as (Hsig & Hch & Hlog & _).
  exists (submitToolCallEvent v taskID "working" mcpReq None), e.
  split.
  { f_equal. f_equal. destruct req as [m pa [d r]]. simpl in *. by subst r. }
  by repeat split.
Qed.

End Recording.

Section Stalling.
Context `{W : World}.

(** X2: a request that passes the guards and that a stall rule applies to
    is parked by the first such rule.  One [blocked] event is handed to
    the ledger, with the rule's id and risk level, in task state
    [working] and without parent; neither the last-event map nor the task
    map is updated.  The event id is registered with a new, empty channel
    that nobody waits on yet; an older entry under the same id is
    replaced. *)
Theorem stalled_request_registered (v : VouchProxy) (req : Request)
    (pol : PolicyConfig) (mcpReq : MCPRequest) (taskID taskState : string)
    (rule : PolicyRule) :
  HttpMethod req = "POST" -> readErr (Body req) = None ->
  extractTaskMetadata (data (Body req)) = Ok (mcpReq, taskID, taskState) ->
  IsHealthy (worker v) = true -> policy v = Some pol ->
  firstStall (Policies pol) (Method mcpReq) (ReqParams mcpReq) = Some rule ->
  exists v1 e,
    interceptRequest v req
    = (v1, req,
       Blocked {| p_req := req; p_taskID := taskID; p_taskState := "working";
                  p_mcpReq := mcpReq; p_rule := rule;
                  p_eventID := uuid8 (draws v);
                  p_chan := List.length (chans v) |}) /\
    ledger v1 = (ledger v ++ [e])%list /\
    EventType e = "blocked" /\ EvID e = uuid8 (draws v) /\
    TaskID e = taskID /\ TaskState e = "working" /\ ParentID e = "" /\
    PolicyID e = ID rule /\ EvRiskLevel e = RiskLevel rule /\
    lastEventByTask v1 = lastEventByTask v /\ activeTasks v1 = activeTasks v /\
    stallSignals v1 = <[uuid8 (draws v) := List.length (chans v)]> (stallSignals v) /\
    chans v1 = (chans v ++ [{| buffer := None; receiver := Away |}])%list.
Proof.
  intros Hpost Hread Hmeta Hh Hpol Hsome.
  pose proof (extractTaskMetadata_Ok _ _ _ _ Hmeta) as (_ & Hm & _ & -> & _).
  rewrite (interceptRequest_guarded _ _ _ _ _ Hpost Hread Hmeta Hh).
  rewrite (evaluatePolicy_firstStall _ _ _ _ Hpol Hm), Hsome. cbn zeta iota.
  assert (Hsame : withBody req (NopCloser (data (Body req))) = req).
  { destruct req as [m pa [d r]]. simpl in *. by subst r. }
  rewrite Hsame. unfold handleStall.
  do 2 eexists. repeat split; reflexivity.
Qed.

Lemma guarded_request_appends v req pol mcpReq taskID taskState :
  HttpMethod req = "POST" -> readErr (Body req) = None ->
  extractTaskMetadata (data (Body req)) = Ok (mcpReq, taskID, taskState) ->
  IsHealthy (worker v) = true -> policy v = Some pol ->
  exists e, ledger (interceptRequest v req).1.1 = (ledger v ++ [e])%list.
Proof.
  intros Hpost Hread Hmeta Hh Hpol.
  pose proof (extractTaskMetadata_Ok _ _ _ _ Hmeta) as (_ & Hm & _).
  rewrite (interceptRequest_guarded _ _ _ _ _ Hpost Hread Hmeta Hh).
  rewrite (evaluatePolicy_firstStall _ _ _ _ Hpol Hm).
  destruct (firstStall _ _ _) as [rule|]; cbn zeta iota.
  - unfold handleStall. by eexists.
  - destruct (submitToolCallEvent_unmatched v taskID taskState mcpReq)
      as (e & He & _).
    by exists e.
Qed.

(** X3: [interceptRequest] hands at most one event to the ledger, and it
    hands one exactly when the request is a POST whose body is read and
    passes [extractTaskMetadata] while the worker is healthy and a policy
    is loaded.  Every other request leaves no trace in the ledger. *)
Theorem request_recorded_iff (v : VouchProxy) (req : Request) :
  (ledger (interceptRequest v req).1.1 = ledger v \/
   exists e, ledger (interceptRequest v req).1.1 = (ledger v ++ [e])%list)
  /\ (ledger (interceptRequest v req).1.1 <> ledger v <->
      HttpMethod req = "POST" /\ readErr (Body req) = None /\
      (exists mcpReq taskID taskState,
         extractTaskMetadata (data (Body req)) = Ok (mcpReq, taskID, taskState)) /\
      IsHealthy (worker v) = true /\ is_Some (policy v)).
Proof.
  assert (Hgrow : forall e, (ledger v ++ [e])%list <> ledger v).
  { intros e Heq. apply (f_equal List.length) in Heq.
    rewrite length_app in Heq. simpl in Heq. lia. }
  destruct (decide (HttpMethod req = "POST")) as [Hpost|Hpost]; cycle 1.
  { unfold interceptRequest. rewrite (bool_decide_eq_true_2 _ Hpost). simpl.
    split; [by left|]. split; [done|]. by intros (? & _). }
  destruct (readErr (Body req)) as [err|] eqn:Hread.
  { unfold interceptRequest, ReadAll.
    rewrite (bool_decide_eq_false_2 (HttpMethod req <> "POST")), Hread by tauto.
    simpl. split; [by left|]. split; [done|]. by intros (_ & ? & _). }
  destruct (extractTaskMetadata (data (Body req))) as [[[m t] s]|e] eqn:Hmeta; cycle 1.
  { unfold interceptRequest, ReadAll.
    rewrite (bool_decide_eq_false_2 (HttpMethod req <> "POST")), Hread, Hmeta by tauto.
    simpl. split; [by left|]. split; [done|]. by intros (_ & _ & (? & ? & ? & ?) & _). }
  destruct (IsHealthy (worker v)) eqn:Hh; cycle 1.
  { unfold interceptRequest, ReadAll.
    rewrite (bool_decide_eq_false_2 (HttpMethod req <> "POST")), Hread, Hmeta, Hh
      by tauto.
    simpl. split; [by left|]. split; [done|]. by intros (_ & _ & _ & ? & _). }
  destruct (policy v) as [pol|] eqn:Hpol; cycle 1.
  { pose proof (extractTaskMetadata_Ok _ _ _ _ Hmeta) as (_ & Hm & _).
    rewrite (interceptRequest_guarded _ _ _ _ _ Hpost Hread Hmeta Hh).
    unfold evaluatePolicy. rewrite (bool_decide_eq_false_2 _ Hm), Hpol. simpl.
    split; [by left|]. split; [done|]. by intros (_ & _ & _ & _ & [? ?]). }
  destruct (guarded_request_appends _ _ _ _ _ _ Hpost Hread Hmeta Hh Hpol)
    as (e & He).
  split; [right; by exists e|].
  rewrite He. split; [|by intros _].
  intros _. repeat split; try done. by exists m, t, s.
Qed.

End Stalling.

Section Signals.
Context `{W : World}.

Lemma handleSignal_answers prefix approved done mark v r eventID :
  eventID <> "" -> Path r = prefix ++ eventID ->
  handleSignal prefix approved done mark v r
  = match stallSignals v !! eventID with
    | None => (v, httpError "Event not found or already processed" StatusNotFound)
    | Some c =>
      match trySend v c approved with
      | Some v' => (logPrintf (mark eventID) v', {| status := StatusOK; text := done ++ nl |})
      | None => (v, httpError "Event already processed" StatusConflict)
      end
    end.
Proof.
  intros Hid Hpath. unfold handleSignal.
  by rewrite Hpath, TrimPrefix_app, (bool_decide_eq_false_2 _ Hid).
Qed.

Lemma lookup_setChan v c ch c' :
  chans (setChan c ch v) !! c'
  = if decide (c = c') then (fun _ => ch) <$> chans v !! c' else chans v !! c'.
Proof.
  unfold setChan. simpl. case_decide as Hc.
  - subst c'. destruct (chans v !! c) as [old|] eqn:Hold; simpl.
    + apply list_lookup_insert_eq. by eapply lookup_lt_Some.
    + rewrite list_insert_ge; [done|]. by apply lookup_ge_None.
  - by apply list_lookup_insert_ne.
Qed.

(** A signal that is sent never takes back a value that has arrived. *)
Lemma trySend_arrived v c b c' b' v' :
  arrived v c b -> trySend v c' b' = Some v' -> arrived v' c b.
Proof.
  intros (ch & Hch & Harr). unfold trySend.
  destruct (chans v !! c') as [ch'|] eqn:Hch'; [|discriminate].
  destruct (decide (c' = c)) as [->|Hne].
  - assert (ch' = ch) as -> by congruence.
    destruct Harr as [Hh|[Ha Hb]].
    + rewrite Hh. destruct (buffer ch); [discriminate|]. intros [= <-].
      eexists. rewrite lookup_setChan, decide_True, Hch by done. simpl.
      split; [done|]. by left.
    + rewrite Ha, Hb. discriminate.
  - intros Hsend.
    assert (chans v' !! c = chans v !! c) as Hsame.
    { destruct (receiver ch'), (buffer ch'); simplify_eq;
        by rewrite lookup_setChan, decide_False. }
    exists ch. by rewrite Hsame.
Qed.

Lemma receive_other v c c' :
  c' <> c -> chans (receive v c').1 !! c = chans v !! c.
Proof.
  intros Hne. unfold receive. destruct (chans v !! c') as [ch|]; [|done].
  destruct (receiver ch), (buffer ch); simpl; try done;
    by apply list_lookup_insert_ne.
Qed.

Lemma interceptRequest_chans v req :
  chans (interceptRequest v req).1.1 = chans v \/
  chans (interceptRequest v req).1.1
  = (chans v ++ [{| buffer := None; receiver := Away |}])%list.
Proof.
  unfold interceptRequest. case_bool_decide; [by left|].
  unfold ReadAll. destruct (readErr (Body req)); [by left|].
  destruct (extractTaskMetadata _) as [[[m t] s]|e]; [|by left].
  destruct (IsHealthy (worker v)); [|by left]. simpl.
  destruct (evaluatePolicy _ _ _) as [[stall r]|e]; [|by left].
  destruct stall.
  - destruct r as [rule|]; [by right|by left].
  - left. apply submitToolCallEvent_frame.
Qed.

Lemma step_arrived v op c b :
  arrived v c b -> leavesChannel c op -> arrived (step v op) c b.
Proof.
  intros Harr Hop.
  destruct op as [req|p|p|resp|r|r|rotated|healthy| |l|ev|t i|t s|i|c'|c' b'];
    simpl; try done.
  - destruct Harr as (ch & Hch & Harr). exists ch. split; [|done].
    destruct (interceptRequest_chans v req) as [->| ->]; [done|].
    by apply lookup_app_l_Some.
  - destruct Harr as (ch & Hch & Harr). exists ch. split; [|done].
    simpl in Hop. rewrite <- Hch, <- (receive_other v c (p_chan p) Hop).
    unfold interceptRequest_resume.
    destruct (receive v (p_chan p)) as [v' [[|]|]]; simpl; try done.
    f_equal. apply submitToolCallEvent_frame.
  - unfold stdinSignal. destruct (stallSignals v !! _); [|done].
    destruct (trySend v (p_chan p) true) as [v'|] eqn:Hs; [|done].
    by eapply trySend_arrived.
  - destruct Harr as (ch & Hch & Harr). exists ch. split; [|done].
    rewrite <- Hch. f_equal. unfold interceptResponse, ReadAll.
    destruct (readErr (RespBody resp)); [done|].
    destruct (UnmarshalResponse _) as [m|e]; [|done].
    destruct (IsHealthy (worker v)); [|done]. simpl.
    destruct (asString (index (Result m) "state")); [case_bool_decide|]; done.
  - unfold handleApprove, handleSignal. case_bool_decide; [done|].
    destruct (stallSignals v !! _) as [c'|]; [|done].
    destruct (trySend v c' true) as [v'|] eqn:Hs; [|done].
    destruct (trySend_arrived _ _ _ _ _ _ Harr Hs) as (ch & ? & ?). by exists ch.
  - unfold handleReject, handleSignal. case_bool_decide; [done|].
    destruct (stallSignals v !! _) as [c'|]; [|done].
    destruct (trySend v c' false) as [v'|] eqn:Hs; [|done].
    destruct (trySend_arrived _ _ _ _ _ _ Harr Hs) as (ch & ? & ?). by exists ch.
  - by destruct rotated as [[o n]|e].
  - destruct Harr as (ch & Hch & Harr). exists ch. split; [|done].
    by apply lookup_app_l_Some.
  - destruct Harr as (ch & Hch & Harr). exists ch. split; [|done].
    simpl in Hop. by rewrite (receive_other v c c' Hop).
  - destruct (trySend v c' b') as [v'|] eqn:Hs; [|done].
    by eapply trySend_arrived.
Qed.

(** What the stalled request does with a value that has arrived. *)
Lemma resume_arrived v p b :
  arrived v (p_chan p) b ->
  (interceptRequest_resume v p).2 = Some (p_req p, b) /\
  if b then
    exists e,
      ledger (interceptRequest_resume v p).1 = (ledger v ++ [e])%list /\
      EventType e = "tool_call" /\ TaskID e = p_taskID p /\
      EvMethod e = Method (p_mcpReq p)
  else ledger (interceptRequest_resume v p).1 = ledger v.
Proof.
  intros (cs & Hr)%receive_arrived. unfold interceptRequest_resume. rewrite Hr.
  destruct b; simpl; [|done]. split; [done|].
  destruct (submitToolCallEvent_event (setChans cs v) (p_taskID p) (p_taskState p)
              (p_mcpReq p) (Some (p_rule p)))
    as (e & Hl & _ & _ & Hty & Htask & _ & Hm & _).
  by exists e.
Qed.

(** X5: the first decision wins.  Once a value has arrived for a stalled
    request, no later approval, rejection, line on standard input, request
    or response changes it: whenever the request goes on, it goes on with
    that value. *)
Theorem first_decision_wins (v : VouchProxy) (ops : list Op) (p : Parked)
    (b : bool) :
  arrived v (p_chan p) b ->
  Forall (leavesChannel (p_chan p)) ops ->
  arrived (run ops v) (p_chan p) b /\
  (interceptRequest_resume (run ops v) p).2 = Some (p_req p, b).
Proof.
  intros Harr Hops.
  assert (Hkept : arrived (run ops v) (p_chan p) b).
  { revert v Harr. induction Hops as [|op ops Hop _ IH]; intros v Harr; [done|].
    apply IH. by apply step_arrived. }
  split; [done|]. by apply resume_arrived.
Qed.

End Signals.

Section Decisions.
Context `{W : World}.

Lemma blocked_channel v req v1 out p :
  interceptRequest v req = (v1, out, Blocked p) ->
  p_req p = out /\
  stallSignals v1 !! p_eventID p = Some (p_chan p) /\
  chans v1 !! p_chan p = Some {| buffer := None; receiver := Away |}.
Proof.
  intros (_ & _ & _ & Hp & _ & _ & _ & Hst)%interceptRequest_Blocked.
  unfold handleStall in Hst. injection Hst as <- <- <-. simpl.
  split; [done|]. split; [apply lookup_insert_eq|].
  by apply list_lookup_middle.
Qed.

Lemma resume_parks v p :
  nothingArrived v (p_chan p) ->
  (interceptRequest_resume v p).2 = None /\
  nothingArrived (interceptRequest_resume v p).1 (p_chan p) /\
  stallSignals (interceptRequest_resume v p).1 = stallSignals v /\
  ledger (interceptRequest_resume v p).1 = ledger v /\
  logs (interceptRequest_resume v p).1 = logs v.
Proof.
  intros (ch & Hch & Hb & Hr). unfold interceptRequest_resume, receive.
  rewrite Hch, Hb.
  destruct Hr as [Hr|Hr]; rewrite Hr; simpl;
    (split; [done|]); (split; [|done]).
  - eexists. rewrite lookup_setChan, decide_True, Hch by done. simpl.
    split; [done|]. split; [done|by right].
  - exists ch. split; [done|]. split; [done|by right].
Qed.

Lemma arrived_setChan v c old ch b :
  chans v !! c = Some old ->
  receiver ch = Handed b \/ (receiver ch = Away /\ buffer ch = Some b) ->
  arrived (setChan c ch v) c b.
Proof.
  intros Hold Hch. exists ch. by rewrite lookup_setChan, decide_True, Hold.
Qed.

(** A signal for a registered id for which nothing has arrived is taken. *)
Lemma signal_delivers prefix approved done mark v r eventID c :
  eventID <> "" -> Path r = prefix ++ eventID ->
  stallSignals v !! eventID = Some c -> nothingArrived v c ->
  status (handleSignal prefix approved done mark v r).2 = StatusOK /\
  arrived (handleSignal prefix approved done mark v r).1 c approved /\
  ledger (handleSignal prefix approved done mark v r).1 = ledger v.
Proof.
  intros Hid Hpath Hreg (ch & Hch & Hb & Hr).
  rewrite (handleSignal_answers _ _ _ _ _ _ _ Hid Hpath), Hreg.
  unfold trySend. rewrite Hch, Hb.
  destruct Hr as [Hr|Hr]; rewrite Hr; cbn [fst snd status];
    (split; [done|]); (split; [|done]);
    apply (arrived_setChan v c ch _ approved Hch); simpl; [by right|by left].
Qed.

(** X4: a stalled request and its decision.  Whether or not the request
    has parked on its channel by then, a signal sent to the path of its
    event id is answered 200, and the request then goes on with the value
    of the signal.  After an approval it hands one [tool_call] event to
    the ledger, right after what the ledger held; after a rejection it
    hands nothing.  The signal itself hands nothing to the ledger. *)
Theorem stall_then_signal (v : VouchProxy) (req : Request) (v1 : VouchProxy)
    (out : Request) (p : Parked) (parkedFirst approved : bool) (r : Request) :
  interceptRequest v req = (v1, out, Blocked p) ->
  p_eventID p <> "" ->
  Path r = (if approved then "/api/approve/" else "/api/reject/") ++ p_eventID p ->
  let v2 := if parkedFirst then (interceptRequest_resume v1 p).1 else v1 in
  let answer := if approved then handleApprove v2 r else handleReject v2 r in
  (interceptRequest_resume v1 p).2 = None /\
  status answer.2 = StatusOK /\ ledger answer.1 = ledger v1 /\
  (interceptRequest_resume answer.1 p).2 = Some (out, approved) /\
  if approved then
    exists e,
      ledger (interceptRequest_resume answer.1 p).1 = (ledger v1 ++ [e])%list /\
      EventType e = "tool_call" /\ TaskID e = p_taskID p /\
      EvMethod e = Method (p_mcpReq p)
  else ledger (interceptRequest_resume answer.1 p).1 = ledger v1.
Proof.
  intros (Hout & Hreg & Hch)%blocked_channel Hid Hpath v2 answer.
  assert (Hfresh : nothingArrived v1 (p_chan p)).
  { eexists. split; [exact Hch|]. split; [done|by left]. }
  destruct (resume_parks v1 p Hfresh) as (Hnone & Hparked & Hsig & Hl & _).
  assert (H2 : nothingArrived v2 (p_chan p) /\
               stallSignals v2 !! p_eventID p = Some (p_chan p) /\
               ledger v2 = ledger v1).
  { subst v2. destruct parkedFirst; [|done]. by rewrite Hsig, Hl. }
  destruct H2 as (Hnothing & Hreg2 & Hl2).
  assert (Hanswer : status answer.2 = StatusOK /\
                    arrived answer.1 (p_chan p) approved /\
                    ledger answer.1 = ledger v2).
  { subst answer. destruct approved.
    - by apply (signal_delivers _ _ _ _ _ _ (p_eventID p)).
    - by apply (signal_delivers _ _ _ _ _ _ (p_eventID p)). }
  destruct Hanswer as (Hok & Harr & Hl3).
  destruct (resume_arrived _ _ _ Harr) as (Hres & Hledger).
  split; [done|]. split; [done|]. split; [congruence|].
  split; [by rewrite Hres, Hout|].
  rewrite <- Hl2, <- Hl3. exact Hledger.
Qed.

(** X6: a line on standard input approves.  The goroutine that
    [handleStall] starts sends [true] as soon as it has read a line,
    whatever the line says: for a stalled request nothing has arrived
    for, the send is made, nothing is logged or handed to the ledger, and
    the request then goes on as approved. *)
Theorem stdin_line_approves (v : VouchProxy) (req : Request) (v1 : VouchProxy)
    (out : Request) (p : Parked) (parkedFirst : bool) :
  interceptRequest v req = (v1, out, Blocked p) ->
  let v2 := if parkedFirst then (interceptRequest_resume v1 p).1 else v1 in
  exists v3,
    stdinSignal v2 p = Some v3 /\
    logs v3 = logs v1 /\ ledger v3 = ledger v1 /\
    (interceptRequest_resume v3 p).2 = Some (out, true).
Proof.
  intros (Hout & Hreg & Hch)%blocked_channel v2.
  assert (Hfresh : nothingArrived v1 (p_chan p)).
  { eexists. split; [exact Hch|]. split; [done|by left]. }
  destruct (resume_parks v1 p Hfresh) as (_ & Hparked & Hsig & Hl & Hlog).
  assert (H2 : nothingArrived v2 (p_chan p) /\
               stallSignals v2 !! p_eventID p = Some (p_chan p) /\
               ledger v2 = ledger v1 /\ logs v2 = logs v1).
  { subst v2. destruct parkedFirst; [|done]. by rewrite Hsig, Hl, Hlog. }
  destruct H2 as ((ch & Hch2 & Hb & Hr) & Hreg2 & Hl2 & Hlog2).
  unfold stdinSignal, trySend. rewrite Hreg2, Hch2, Hb.
  assert (Hgo : forall ch',
    (receiver ch' = Handed true \/ receiver ch' = Away /\ buffer ch' = Some true) ->
    (interceptRequest_resume (setChan (p_chan p) ch' v2) p).2 = Some (out, true)).
  { intros ch' Hch'. rewrite <- Hout. apply resume_arrived.
    by apply (arrived_setChan v2 _ ch). }
  destruct Hr as [-> | ->]; eexists; (split; [reflexivity|]);
    (split; [done|]); (split; [done|]); apply Hgo; simpl; [by right|by left].
Qed.

Lemma stripPrefix_Some s prefix rest :
  stripPrefix s prefix = Some rest <-> s = prefix ++ rest.
Proof.
  revert s. induction prefix as [|c prefix IH]; intros s; simpl.
  - split; [by intros [= ->]|by intros ->].
  - destruct s as [|d s]; [by split|].
    destruct (Ascii.eqb c d) eqn:Hcd.
    + apply Ascii.eqb_eq in Hcd as ->. rewrite IH. split; [by intros ->|by intros [= ->]].
    + apply Ascii.eqb_neq in Hcd. split; [done|]. by intros [= -> _].
Qed.

Lemma append_empty s : s ++ "" = s.
Proof.
  induction s as [|c s IH]; [done|].
  change (String c (s ++ "") = String c s). by rewrite IH.
Qed.

Lemma append_is_prefix prefix rest : prefix ++ rest = prefix -> rest = "".
Proof.
  induction prefix as [|c prefix IH]; [done|].
  change (String c (prefix ++ rest) = String c prefix -> rest = "").
  intros [= He]. by apply IH.
Qed.

Lemma TrimPrefix_empty s prefix :
  TrimPrefix s prefix = "" <-> s = "" \/ s = prefix.
Proof.
  unfold TrimPrefix.
  destruct (stripPrefix s prefix) as [rest|] eqn:Hs; simpl.
  - apply stripPrefix_Some in Hs as ->. split.
    + intros ->. right. apply append_empty.
    + intros [He|He]; [by destruct prefix|]. by apply append_is_prefix in He.
  - split; [by left|]. intros [->| ->]; [done|].
    exfalso. assert (stripPrefix prefix prefix = Some "") as Hp.
    { apply stripPrefix_Some. by rewrite append_empty. }
    congruence.
Qed.

Lemma trySend_either v c b b' :
  is_Some (trySend v c b) <-> is_Some (trySend v c b').
Proof.
  unfold trySend. destruct (chans v !! c) as [ch|]; [|done].
  destruct (receiver ch), (buffer ch); split; intros [? ?]; by eexists.
Qed.

(** X7: what a signal does not do and what decides its answer.
    [handleApprove] and [handleReject] hand nothing to the ledger and
    leave the worker, the task maps, the registry of stalls and the
    policy as they were; they neither create nor drop a channel.  The
    answer is 400 exactly when the path is empty or is the bare prefix,
    and for the same event id the two handlers give the same status. *)
Theorem signal_leaves_no_trace (v : VouchProxy) (r : Request) :
  (forall h, h = handleApprove \/ h = handleReject ->
     worker (h v r).1 = worker v /\ draws (h v r).1 = draws v /\
     lastEventByTask (h v r).1 = lastEventByTask v /\
     activeTasks (h v r).1 = activeTasks v /\
     stallSignals (h v r).1 = stallSignals v /\ policy (h v r).1 = policy v /\
     List.length (chans (h v r).1) = List.length (chans v))
  /\ (status (handleApprove v r).2 = StatusBadRequest <->
      Path r = "" \/ Path r = "/api/approve/")
  /\ (status (handleReject v r).2 = StatusBadRequest <->
      Path r = "" \/ Path r = "/api/reject/")
  /\ (forall eventID r',
        Path r = "/api/approve/" ++ eventID ->
        Path r' = "/api/reject/" ++ eventID ->
        status (handleApprove v r).2 = status (handleReject v r').2).
Proof.
  assert (Hframe : forall prefix approved done mark,
    let res := handleSignal prefix approved done mark v r in
    worker res.1 = worker v /\ draws res.1 = draws v /\
    lastEventByTask res.1 = lastEventByTask v /\
    activeTasks res.1 = activeTasks v /\
    stallSignals res.1 = stallSignals v /\ policy res.1 = policy v /\
    List.length (chans res.1) = List.length (chans v)).
  { intros prefix approved done mark. unfold handleSignal, trySend.
    case_bool_decide; [done|].
    destruct (stallSignals v !! _) as [c|]; [|done].
    destruct (chans v !! c) as [ch|]; [|done].
    destruct (receiver ch), (buffer ch); simpl; repeat split;
      try done; by rewrite length_insert. }
  assert (Hbad : forall prefix approved done mark,
    status (handleSignal prefix approved done mark v r).2 = StatusBadRequest <->
    Path r = "" \/ Path r = prefix).
  { intros prefix approved done mark. rewrite <- TrimPrefix_empty.
    unfold handleSignal. case_bool_decide as He; [done|].
    split; [|done].
    destruct (stallSignals v !! _) as [c|]; [|by intros [=]].
    by destruct (trySend v c approved); intros [=]. }
  split; [|split; [|split]].
  - intros h [-> | ->]; apply Hframe.
  - apply Hbad.
  - apply Hbad.
  - intros eventID r' Hr Hr'. unfold handleApprove, handleReject, handleSignal.
    rewrite Hr, Hr', !TrimPrefix_app.
    case_bool_decide; [done|].
    destruct (stallSignals v !! eventID) as [c|]; [|done].
    pose proof (trySend_either v c true false) as Hiff.
    destruct (trySend v c true), (trySend v c false); try done.
    + destruct (proj1 Hiff) as [? ?]; [by eexists|done].
    + destruct (proj2 Hiff) as [? ?]; [by eexists|done].
Qed.

End Decisions.

Section Redaction.
Context `{W : World}.

Lemma shouldRedact_app k ks1 ks2 :
  shouldRedact k (ks1 ++ ks2) = shouldRedact k ks1 || shouldRedact k ks2.
Proof.
  induction ks1 as [|key rest IH]; simpl; [done|]. by case_bool_decide.
Qed.

Lemma shouldRedact_same k ks ks' :
  (forall key, key ∈ ks <-> key ∈ ks') -> shouldRedact k ks = shouldRedact k ks'.
Proof.
  intros Hsame. apply eq_true_iff_eq. change (?b = true) with (is_true b).
  unfold is_true. by rewrite !shouldRedact_elem_of.
Qed.

(** X8: [redactParams] keeps the keys of the params as they are: it adds
    none and drops none.  Redacting twice with the same keys changes
    nothing more, redacting with no keys copies the map, and redacting
    params that are nil gives an empty map. *)
Theorem redactParams_keeps_keys (kv : JMap) (keys : list string) :
  dom (redactParams (Some kv) keys) = dom kv
  /\ redactParams (Some (redactParams (Some kv) keys)) keys
     = redactParams (Some kv) keys
  /\ redactParams (Some kv) [] = kv
  /\ redactParams None keys = ∅.
Proof.
  split; [|split; [|split]].
  - apply set_eq. intros k. rewrite !elem_of_dom, redactParams_lookup.
    by rewrite fmap_is_Some.
  - apply map_eq. intros k. rewrite !redactParams_lookup.
    destruct (kv !! k) as [x|]; simpl; [|done].
    by destruct (shouldRedact k keys).
  - apply map_eq. intros k. rewrite redactParams_lookup. simpl.
    by destruct (kv !! k).
  - done.
Qed.

(** X9: redacting with one list of keys and then with another is
    redacting with both lists at once, in either order; only the set of
    keys matters, not their order or their repetition. *)
Theorem redactParams_composes (kv : JMap) (ks1 ks2 : list string) :
  redactParams (Some (redactParams (Some kv) ks1)) ks2
  = redactParams (Some kv) (ks1 ++ ks2)
  /\ redactParams (Some (redactParams (Some kv) ks1)) ks2
     = redactParams (Some (redactParams (Some kv) ks2)) ks1
  /\ ((forall key, key ∈ ks1 <-> key ∈ ks2) ->
      redactParams (Some kv) ks1 = redactParams (Some kv) ks2).
Proof.
  split; [|split].
  - apply map_eq. intros k. rewrite !redactParams_lookup, shouldRedact_app.
    destruct (kv !! k) as [x|]; simpl; [|done].
    by destruct (shouldRedact k ks1), (shouldRedact k ks2).
  - apply map_eq. intros k. rewrite !redactParams_lookup.
    destruct (kv !! k) as [x|]; simpl; [|done].
    by destruct (shouldRedact k ks1), (shouldRedact k ks2).
  - intros Hsame. apply map_eq. intros k. rewrite !redactParams_lookup.
    by rewrite (shouldRedact_same k ks1 ks2 Hsame).
Qed.

End Redaction.

Section Responses.
Context `{W : World}.

(** X10: a response whose body is read and decodes, met while the worker
    is healthy, hands exactly one [tool_response] event to the ledger.
    The event carries the [result] member (nothing of the [error]
    member), no method, no params and no parent; its task id and task
    state are the strings at [task_id] and [state] in the result, empty
    when missing or not strings.  The task map is updated only when both
    are there; the last-event map, the registry of stalls and the
    response itself are left as they were. *)
Theorem response_recorded (v : VouchProxy) (resp : HttpResponse)
    (mcpResp : MCPResponse) :
  readErr (RespBody resp) = None ->
  UnmarshalResponse (data (RespBody resp)) = Ok mcpResp ->
  IsHealthy (worker v) = true ->
  let taskID := default "" (asString (index (Result mcpResp) "task_id")) in
  let state := asString (index (Result mcpResp) "state") in
  exists v' e,
    interceptResponse v resp = (v', resp, None) /\
    ledger v' = (ledger v ++ [e])%list /\
    EventType e = "tool_response" /\ EvID e = uuid8 (draws v) /\
    Response e = Result mcpResp /\ Params e = None /\ EvMethod e = "" /\
    TaskID e = taskID /\ TaskState e = default "" state /\ ParentID e = "" /\
    PolicyID e = "" /\ WasBlocked e = false /\
    lastEventByTask v' = lastEventByTask v /\ stallSignals v' = stallSignals v /\
    chans v' = chans v /\
    activeTasks v'
    = match state with
      | Some s => if bool_decide (taskID = "") then activeTasks v
                  else <[taskID := s]> (activeTasks v)
      | None => activeTasks v
      end.
Proof.
  intros Hread Hdec Hh taskID state.
  assert (Hsame : withRespBody resp (NopCloser (data (RespBody resp))) = resp).
  { destruct resp as [code [d r]]. simpl in *. by subst r. }
  unfold interceptResponse, ReadAll. rewrite Hread, Hdec, Hh, Hsame. simpl.
  fold taskID. fold state.
  destruct state as [s|]; [case_bool_decide|];
    do 2 eexists; repeat split; reflexivity.
Qed.

End Responses.

Section Ledger.
Context `{W : World}.

Lemma submitToolCallEvent_kind v taskID taskState mcpReq matchedRule :
  exists e,
    ledger (submitToolCallEvent v taskID taskState mcpReq matchedRule)
    = (ledger v ++ [e])%list /\ interceptorEvent e.
Proof.
  unfold submitToolCallEvent.
  case_bool_decide; [|destruct (lastEventByTask _ !! _)];
    destruct matchedRule; eexists; (split; [reflexivity|]);
    right; left; by repeat split.
Qed.

Lemma step_appends_kind v op :
  ledger (step v op) = ledger v \/
  exists e, ledger (step v op) = (ledger v ++ [e])%list /\ interceptorEvent e.
Proof.
  destruct op as [req|p|p|resp|r|r|rotated|healthy| |l|b|t i|t s|i|c|c b];
    simpl; try by left.
  - unfold interceptRequest. case_bool_decide; [by left|].
    unfold ReadAll. destruct (readErr (Body req)); [by left|].
    destruct (extractTaskMetadata _) as [[[m t] s]|e]; [|by left].
    destruct (IsHealthy (worker v)); [|by left]. simpl.
    destruct (evaluatePolicy _ _ _) as [[stall r]|e]; [|by left].
    destruct stall; [|right; apply submitToolCallEvent_kind].
    destruct r as [rule|]; [|by left]. right. simpl.
    eexists. split; [reflexivity|]. left. by repeat split.
  - unfold interceptRequest_resume.
    destruct (receive_frame v (p_chan p)) as (cs & res & ->).
    destruct res as [[|]|]; simpl; [|by left..].
    right. apply (submitToolCallEvent_kind (setChans cs v)).
  - left. unfold stdinSignal. destruct (stallSignals v !! _); [|done].
    destruct (trySend v (p_chan p) true) as [v'|] eqn:Hs; [|done].
    by apply trySend_frame in Hs as (cs & ->).
  - unfold interceptResponse, ReadAll.
    destruct (readErr (RespBody resp)); [by left|].
    destruct (UnmarshalResponse _) as [m|e]; [|by left].
    destruct (IsHealthy (worker v)); [|by left]. simpl. right.
    destruct (asString (index (Result m) "state")); [case_bool_decide|];
      eexists; (split; [reflexivity|]); right; right; by repeat split.
  - left. apply handleSignal_unchanged.
  - left. apply handleSignal_unchanged.
  - left. by destruct rotated as [[o n]|e].
  - right. exists (eventOf b). split; [done|].
    destruct b; [right; left|left|right; right]; by repeat split.
  - left. by destruct (receive_frame v c) as (cs & res & ->).
  - left. destruct (trySend v c b) as [v'|] eqn:Hs; [|done].
    by apply trySend_frame in Hs as (cs & ->).
Qed.

(** X11: the only events the proxy ever hands to the ledger are [blocked],
    [tool_call] and [tool_response] events: whatever requests, responses,
    signals and key rotations it serves, no event of another type (such
    as [approval], [rejection] or [rekey]) is built.  An event is marked
    as blocked exactly when it is a [blocked] event, and only [tool_call]
    events name a parent. *)
Theorem ledger_event_kinds (pol : option PolicyConfig) (ops : list Op) :
  Forall interceptorEvent (ledger (run ops (newVouchProxy pol)))
  /\ forall e, e ∈ ledger (run ops (newVouchProxy pol)) ->
       (EventType e = "blocked" \/ EventType e = "tool_call" \/
        EventType e = "tool_response") /\
       (WasBlocked e = true <-> EventType e = "blocked") /\
       (ParentID e <> "" -> EventType e = "tool_call").
Proof.
  assert (Hall : forall v, Forall interceptorEvent (ledger v) ->
                           Forall interceptorEvent (ledger (run ops v))).
  { induction ops as [|op ops' IH]; intros v Hv; [done|].
    apply IH. destruct (step_appends_kind v op) as [->|(e & -> & He)]; [done|].
    apply Forall_app. split; [done|]. by constructor. }
  specialize (Hall (newVouchProxy pol) (Forall_nil_2 _)).
  split; [exact Hall|].
  intros e He. rewrite Forall_forall in Hall. specialize (Hall e He).
  destruct Hall as [(Hty & Hb & Hp & _)|[(Hty & Hb & _)|(Hty & Hb & Hp & _)]];
    rewrite Hty, Hb; repeat split; try tauto; try done; try congruence.
Qed.

End Ledger.

(** ** The handlers as runs of their accesses *)

Section Accesses.
Context `{W : World}.

(** [submitToolCallEvent] is the run of its accesses to the shared state,
    in the order of the source: the draw for the event literal, the two
    stores, and the submit last. *)
Lemma submitToolCallEvent_accesses v taskID taskState mcpReq matchedRule :
  submitToolCallEvent v taskID taskState mcpReq matchedRule
  = run (if bool_decide (taskID = "") then
           [OpDraw;
            OpSubmit (BuiltToolCall (nextID v) (nextTime v) taskID taskState
                        mcpReq matchedRule "")]
         else
           [OpDraw;
            OpStoreLast taskID (nextID v);
            OpStoreActive taskID taskState;
            OpSubmit (BuiltToolCall (nextID v) (nextTime v) taskID taskState
                        mcpReq matchedRule
                        (default "" (lastEventByTask v !! taskID)))]) v.
Proof.
  unfold submitToolCallEvent. case_bool_decide.
  - by destruct matchedRule.
  - cbn [drawn setDraws lastEventByTask].
    by destruct matchedRule, (lastEventByTask v !! taskID).
Qed.

(** [handleStall] up to its receive is the run of its accesses. *)
Lemma handleStall_accesses v taskID taskState mcpReq rule :
  handleStall v taskID taskState mcpReq (Some rule)
  = Ok (run [OpDraw;
             OpLog (LogStall (Method mcpReq) (ID rule) (nextID v));
             OpSubmit (BuiltBlocked (nextID v) (nextTime v) taskID taskState
                         mcpReq rule);
             OpRegister (nextID v);
             OpLog (LogWaiting (nextID v))] v,
        nextID v, List.length (chans v)).
Proof. reflexivity. Qed.

(** [interceptResponse], where it records the response, is the run of
    its accesses. *)
Lemma interceptResponse_accesses v resp mcpResp :
  readErr (RespBody resp) = None ->
  UnmarshalResponse (data (RespBody resp)) = Ok mcpResp ->
  IsHealthy (worker v) = true ->
  let taskID := default "" (asString (index (Result mcpResp) "task_id")) in
  let state := asString (index (Result mcpResp) "state") in
  (interceptResponse v resp).1.1
  = run ((match state with
          | Some s => if bool_decide (taskID = "") then []
                      else [OpStoreActive taskID s]
          | None => []
          end)
         ++ [OpDraw;
             OpSubmit (BuiltResponse (nextID v) (nextTime v) mcpResp taskID
                         (default "" state))]) v.
Proof.
  intros Hread Hdec Hh taskID state.
  unfold interceptResponse, ReadAll. rewrite Hread, Hdec, Hh. simpl.
  fold taskID. fold state.
  destruct state as [s|]; [case_bool_decide|]; reflexivity.
Qed.

(** A stalled request that goes on is the receive and then, after an
    approval, [submitToolCallEvent], or, after a rejection, the log line
    of [sendErrorResponse]. *)
Lemma interceptRequest_resume_accesses v p :
  let v1 := step v (OpReceive (p_chan p)) in
  (interceptRequest_resume v p).1
  = match (receive v (p_chan p)).2 with
    | None => v1
    | Some true =>
      submitToolCallEvent v1 (p_taskID p) (p_taskState p) (p_mcpReq p)
        (Some (p_rule p))
    | Some false =>
      sendErrorResponse v1 StatusForbidden (-32000) "Stall rejected or failed"
    end.
Proof.
  unfold interceptRequest_resume. simpl.
  by destruct (receive v (p_chan p)) as [v1 [[|]|]].
Qed.

(** A signal that is taken is a send and a log line. *)
Lemma handleSignal_accesses prefix approved done mark v r eventID c v' :
  eventID <> "" -> Path r = prefix ++ eventID ->
  stallSignals v !! eventID = Some c -> trySend v c approved = Some v' ->
  (handleSignal prefix approved done mark v r).1
  = run [OpSend c approved; OpLog (mark eventID)] v.
Proof.
  intros Hid Hpath Hreg Hsend.
  rewrite (handleSignal_answers _ _ _ _ _ _ _ Hid Hpath), Hreg, Hsend.
  simpl. by rewrite Hsend.
Qed.

End Accesses.

Section Registry.
Context `{W : World}.

(** X14: the registry of stalls never forgets.  An event id that is
    registered stays registered whatever requests, responses, signals
    and key rotations are served afterwards, so a later signal for it,
    approval or rejection, is answered 200 or 409 and never 404: the
    handlers cannot tell a stall that was resolved long ago from one that
    still waits. *)
Theorem stall_registry_never_forgets (v : VouchProxy) (ops : list Op)
    (eventID : string) (approved : bool) (r : Request) :
  eventID <> "" -> is_Some (stallSignals v !! eventID) ->
  Path r = (if approved then "/api/approve/" else "/api/reject/") ++ eventID ->
  let v' := run ops v in
  let answer := if approved then handleApprove v' r else handleReject v' r in
  is_Some (stallSignals v' !! eventID)
  /\ (status answer.2 = StatusOK \/ status answer.2 = StatusConflict).
Proof.
  intros Hid Hreg Hpath v' answer.
  destruct (run_stallSignals ops v eventID Hreg) as [c Hc]. fold v' in Hc.
  split; [by exists c|].
  subst answer. unfold handleApprove, handleReject.
  destruct approved;
    rewrite (handleSignal_answers _ _ _ _ _ _ eventID Hid Hpath), Hc;
    destruct (trySend v' c _); cbn [snd status]; first [by left|by right].
Qed.

End Registry.

Section Forwarding.
Context `{W : World}.
Variable upstream : Request -> HttpResponse.



End Forwarding.

(** ** The command line tools *)

Module CliFacts.
Import Cli.

Lemma slice_None s n : slice s n = None <-> (String.length s < n)%nat.
Proof.
  revert s. induction n as [|n IH]; intros s; simpl.
  - split; [done|lia].
  - destruct s as [|c s]; simpl; [split; [lia|done]|].
    destruct (slice s n) eqn:Hs; simpl.
    + split; [done|]. intros Hlt. assert (slice s n = None) by (apply IH; lia).
      congruence.
    + split; [|done]. intros _. apply IH in Hs. lia.
Qed.

Lemma slice_Some s n : is_Some (slice s n) <-> (n <= String.length s)%nat.
Proof.
  destruct (slice s n) eqn:Hs.
  - split; [|by eexists]. intros _.
    destruct (decide (n <= String.length s)%nat); [done|].
    assert (slice s n = None) by (apply slice_None; lia). congruence.
  - apply slice_None in Hs. split; [by intros [? ?]|lia].
Qed.

Ltac cases :=
  repeat match goal with
         | |- _ /\ _ => split
         | |- _ <-> _ => split
         | |- _ -> _ => intro
         | H : _ /\ _ |- _ => destruct H
         | H : exists _, _ |- _ => destruct H
         | H : _ \/ _ |- _ => destruct H
         | H1 : ?o = _, H2 : ?o = _ |- _ => rewrite H1 in H2
         | H : Ok _ = Ok _ |- _ => injection H as H; subst
         | H : Ok _ = Err _ |- _ => discriminate H
         | H : Err _ = Ok _ |- _ => discriminate H
         | H : true = false |- _ => discriminate H
         end;
  simplify_eq; try done; try lia.

(** X15: how [VerifyCommand] ends.  It exits with status 0 exactly when
    the arguments ask for help and with status 2 exactly when the flag
    set refuses them, in both cases before the store is opened.  It
    returns exactly when the flags parse, the store and the signer open
    and either there is no run, or the run id has at least 8 bytes, the
    chain verifies and the anchors are skipped, could not be checked, or
    are valid: an error of the anchor check is only a warning.  It
    panics exactly when there are no arguments to slice, or the flags
    parse, store and signer open and the run id is not empty and shorter
    than 8 bytes.  In every other case it exits with status 1.  The store
    is closed exactly when the command returns, or panics on the run
    id. *)
Theorem VerifyCommand_ending (flags : Parse bool) (env : Env) :
  let r := VerifyCommand flags env in
  (ending r = Exits 0 <-> flags = ParseHelp)
  /\ (ending r = Exits 2 <-> flags = ParseFailed)
  /\ (ending r = Returns <->
      exists skipLive,
        flags = Parsed skipLive /\
        NewDB env = None /\ NewSigner env = None /\
        exists runID,
          GetRunID env = Ok runID /\
          (runID = "" \/
           ((8 <= String.length runID)%nat /\
            exists result,
              VerifyChain env runID = Ok result /\ Valid result = true /\
              (skipLive = true \/
               (exists err, VerifyAnchors env runID = Err err) \/
               (exists anchors,
                  VerifyAnchors env runID = Ok anchors /\
                  AnchorsValid anchors = true)))))
  /\ (ending r = Panics <->
      flags = NoArguments \/
      ((exists skipLive, flags = Parsed skipLive) /\
       NewDB env = None /\ NewSigner env = None /\
       exists runID,
         GetRunID env = Ok runID /\ runID <> "" /\
         (String.length runID < 8)%nat))
  /\ (ending r = Returns \/ ending r = Panics \/ ending r = Exits 0 \/
      ending r = Exits 1 \/ ending r = Exits 2)
  /\ (closed r = true <->
      ending r = Returns \/ (ending r = Panics /\ flags <> NoArguments)).
Proof.
  unfold VerifyCommand.
  destruct flags as [skipLive| | |]; [|simpl; cases; eauto 8..].
  destruct (NewDB env) as [e|] eqn:Hdb; [simpl; cases; eauto 12|].
  destruct (NewSigner env) as [e|] eqn:Hsigner; [simpl; cases; eauto 12|].
  destruct (GetRunID env) as [runID|e] eqn:Hrun; [|simpl; cases; eauto 12].
  case_bool_decide as Hne; [simpl; cases; eauto 12|].
  destruct (slice runID 8) as [shown|] eqn:Hs.
  - assert (8 <= String.length runID)%nat as Hlen
      by (apply slice_Some; by eexists).
    destruct (VerifyChain env runID) as [result|e] eqn:Hchain;
      [|simpl; cases; eauto 12].
    destruct (Valid result) eqn:Hv; cycle 1.
    { unfold reportFailure. destruct (0 <? FailedAtSeq result);
        simpl; cases; eauto 12. }
    destruct skipLive; [simpl; cases; eauto 25|].
    destruct (VerifyAnchors env runID) as [anchors|e] eqn:Hanchors;
      [|simpl; cases; eauto 25].
    destruct (AnchorsValid anchors) eqn:Ha; simpl; cases; eauto 25.
  - apply slice_None in Hs. simpl. cases; eauto 12.
Qed.

(** X16: the anchors are looked at only when it matters.  With
    [--skip-live], or when the chain of the run does not verify, or when
    there is no run to verify, the run of [VerifyCommand] is the same
    whatever the anchor check would answer. *)
Theorem anchors_only_after_valid_chain (skipLive : bool) (env : Env)
    (anchors : string -> Fallible AnchorResult) :
  (skipLive = true \/
   forall runID result,
     GetRunID env = Ok runID -> VerifyChain env runID = Ok result ->
     Valid result = false) ->
  VerifyCommand (Parsed skipLive) (withAnchors anchors env)
  = VerifyCommand (Parsed skipLive) env.
Proof.
  intros Hskip. unfold VerifyCommand, withAnchors.
  cbn [NewDB NewSigner GetRunID VerifyChain VerifyAnchors].
  destruct (NewDB env); [done|]. destruct (NewSigner env); [done|].
  cbn [isNil Check].
  destruct (GetRunID env) as [runID|e] eqn:Hrun; [|done].
  case_bool_decide; [done|]. destruct (slice runID 8); [|done].
  destruct (VerifyChain env runID) as [result|e] eqn:Hchain; [|done].
  destruct (Valid result) eqn:Hv; [|done].
  destruct Hskip as [->|Hbad]; [done|].
  specialize (Hbad runID result eq_refl Hchain). congruence.
Qed.

(** X17: the two verify commands agree.  On the same store, the
    [verifyCommand] of the command line tool and [VerifyCommand] with
    [--skip-live] end the same way, leave the store closed or not alike
    and print as many lines; when the store and the signer open, the only
    line that may differ is the second one, the verdict on the chain. *)
Theorem verify_commands_agree (env : Env) :
  ending (verifyCommand env) = ending (VerifyCommand (Parsed true) env)
  /\ closed (verifyCommand env) = closed (VerifyCommand (Parsed true) env)
  /\ List.length (output (verifyCommand env))
     = List.length (output (VerifyCommand (Parsed true) env))
  /\ (NewDB env = None -> NewSigner env = None ->
      forall i : nat, i <> 1%nat ->
        output (verifyCommand env) !! i
        = output (VerifyCommand (Parsed true) env) !! i).
Proof.
  unfold verifyCommand, VerifyCommand.
  destruct (NewDB env); [by repeat split|].
  destruct (NewSigner env); [by repeat split|].
  cbn [isNil Check].
  destruct (GetRunID env) as [runID|e]; [|by repeat split].
  case_bool_decide; [by repeat split|].
  destruct (slice runID 8); [|by repeat split].
  destruct (VerifyChain env runID) as [result|e]; [|by repeat split].
  destruct (Valid result).
  - split; [done|]. split; [done|]. split; [done|].
    intros _ _ [|[|i]] Hi; done.
  - unfold reportFailure. destruct (0 <? FailedAtSeq result).
    + split; [done|]. split; [done|]. split; [done|].
      intros _ _ [|[|i]] Hi; done.
    + split; [done|]. split; [done|]. split; [done|].
      intros _ _ [|[|i]] Hi; done.
Qed.

(** X19: how [statusCommand] ends once the store has opened and holds a
    run with its record.  It returns exactly when the run id has at least
    8 bytes, the genesis hash at least 16 and the public key at least 32;
    otherwise it panics on the slice that is too short, after the two
    header lines.  Either way the store is closed. *)
Theorem statusCommand_ending (env : Env) (runID agentName genesisHash pubKey : string) :
  NewDB env = None -> GetRunID env = Ok runID -> runID <> "" ->
  GetRunInfo env runID = Ok (agentName, genesisHash, pubKey) ->
  let r := statusCommand env in
  (ending r = Returns <->
   (8 <= String.length runID)%nat /\ (16 <= String.length genesisHash)%nat
   /\ (32 <= String.length pubKey)%nat)
  /\ (ending r = Panics <->
      (String.length runID < 8)%nat \/ (String.length genesisHash < 16)%nat
      \/ (String.length pubKey < 32)%nat)
  /\ closed r = true
  /\ take 2 (output r)
     = [Printf "Current Run Status\n" []; Printf "==================\n" []].
Proof.
  intros Hdb Hrun Hne Hinfo. unfold statusCommand.
  rewrite Hdb, Hrun, (bool_decide_eq_false_2 _ Hne), Hinfo.
  destruct (slice runID 8) eqn:H1.
  - assert (8 <= String.length runID)%nat by (apply slice_Some; by eexists).
    destruct (slice genesisHash 16) eqn:H2.
    + assert (16 <= String.length genesisHash)%nat by (apply slice_Some; by eexists).
      destruct (slice pubKey 32) eqn:H3.
      * assert (32 <= String.length pubKey)%nat by (apply slice_Some; by eexists).
        cbn [say stop ending closed output take]. cases; lia.
      * apply slice_None in H3. cbn [say stop ending closed output take].
        cases; eauto.
    + apply slice_None in H2. cbn [say stop ending closed output take].
      cases; eauto.
  - apply slice_None in H1. cbn [say stop ending closed output take].
    cases; eauto.
Qed.

(** X20: only three commands touch the store.  When the first argument
    is none of [verify], [status] and [events], or is missing, the run of
    [main] is the same whatever the store holds; with [approve] or
    [reject] and an event id it prints its notes and returns, and in
    every other such case it exits with status 1. *)
Theorem main_without_store (args : list string) (flags : Parse Z)
    (env env' : Env) :
  args !! 1%nat <> Some "verify" -> args !! 1%nat <> Some "status" ->
  args !! 1%nat <> Some "events" ->
  main args flags env = main args flags env'
  /\ (ending (main args flags env) = Returns <->
      (args !! 1%nat = Some "approve" \/ args !! 1%nat = Some "reject")
      /\ is_Some (args !! 2%nat))
  /\ (ending (main args flags env) = Returns \/
      ending (main args flags env) = Exits 1).
Proof.
  intros Hv Hs He. unfold main.
  destruct (args !! 1%nat) as [command|] eqn:Hc; cycle 1.
  { cbn. split; [done|]. split; [|by right].
    split; [done|]. by intros [[?|?] _]. }
  rewrite (bool_decide_eq_false_2 (command = "verify")) by congruence.
  rewrite (bool_decide_eq_false_2 (command = "status")) by congruence.
  rewrite (bool_decide_eq_false_2 (command = "events")) by congruence.
  split; [done|].
  case_bool_decide as Ha.
  { subst. unfold approveCommand. destruct (args !! 2%nat) eqn:H2; cbn.
    - split; [|by left]. split; [|done]. intros _. split; [by left|by eexists].
    - split; [|by right]. split; [done|]. by intros [_ [? ?]]. }
  case_bool_decide as Hr.
  { subst. unfold rejectCommand. destruct (args !! 2%nat) eqn:H2; cbn.
    - split; [|by left]. split; [|done]. intros _. split; [by right|by eexists].
    - split; [|by right]. split; [done|]. by intros [_ [? ?]]. }
  cbn. split; [|by right]. split; [done|].
  intros [[?|?] _]; congruence.
Qed.

Lemma eventsLoop_app events more n :
  (n <= List.length events)%nat ->
  eventsLoop (events ++ more) n = eventsLoop events n.
Proof.
  induction n as [|n IH]; intros Hn; cbn [eventsLoop]; [done|].
  rewrite lookup_app_l by lia.
  destruct (events !! n) as [e|]; [|done].
  destruct (slice (StoredID e) 8); [|done].
  rewrite IH by lia. done.
Qed.

Lemma eventsLoop_snoc events e :
  eventsLoop (events ++ [e]) (S (List.length events))
  = match slice (StoredID e) 8 with
    | None => stop Panics true
    | Some shown =>
      say (Printf "[%d] %s | %s | %s\n"
             [AInt (SeqIndex e); AStr shown; AStr (StoredType e);
              AStr (StoredMethod e)])
        (if StoredBlocked e
         then say (Printf "    BLOCKED\n" []) (eventsLoop events (List.length events))
         else eventsLoop events (List.length events))
    end.
Proof.
  cbn [eventsLoop]. rewrite list_lookup_middle by done.
  destruct (slice (StoredID e) 8); [|done].
  by rewrite eventsLoop_app.
Qed.

Lemma eventsLoop_listing events :
  (Forall (fun e => (8 <= String.length (StoredID e))%nat) events ->
   eventsLoop events (List.length events)
   = {| output := flat_map eventLines (rev events); ending := Returns;
        closed := true |})
  /\ (ending (eventsLoop events (List.length events)) = Panics <->
      Exists (fun e => (String.length (StoredID e) < 8)%nat) events).
Proof.
  induction events as [|e events [IHall IHpanic]] using rev_ind.
  - split; [done|]. split; [done|]. by intros ?%Exists_nil.
  - rewrite length_app, Nat.add_1_r, eventsLoop_snoc. split.
    + intros [Hall He]%Forall_app. apply Forall_inv in He. simpl in He.
      rewrite rev_unit. cbn [flat_map]. unfold eventLines at 1.
      destruct (slice (StoredID e) 8) as [shown|] eqn:Hs; cycle 1.
      { apply slice_None in Hs. lia. }
      rewrite (IHall Hall). by destruct (StoredBlocked e).
    + rewrite Exists_app, Exists_cons, Exists_nil.
      destruct (slice (StoredID e) 8) as [shown|] eqn:Hs.
      * assert (8 <= String.length (StoredID e))%nat
          by (apply slice_Some; by eexists).
        assert (ending (say (Printf "[%d] %s | %s | %s\n"
                  [AInt (SeqIndex e); AStr shown; AStr (StoredType e);
                   AStr (StoredMethod e)])
                  (if StoredBlocked e
                   then say (Printf "    BLOCKED\n" [])
                          (eventsLoop events (List.length events))
                   else eventsLoop events (List.length events)))
                = ending (eventsLoop events (List.length events))) as ->
          by (by destruct (StoredBlocked e)).
        rewrite IHpanic. split; [tauto|]. intros [?|[?|[]]]; [done|lia].
      * apply slice_None in Hs. simpl. tauto.
Qed.

(** X18: what [eventsCommand] lists.  When the store opens, has a run and
    returns events whose ids all have at least 8 bytes, the command
    prints its two header lines and then the events in the reverse of
    the order the store returned them, one line each with the first 8
    bytes of the id, followed by a [BLOCKED] line exactly for the events
    marked as blocked.  It panics exactly when some returned event has an
    id shorter than 8 bytes. *)
Theorem eventsCommand_listing (limit : Z) (env : Env) (runID : string)
    (events : list StoredEvent) :
  NewDB env = None -> GetRunID env = Ok runID -> runID <> "" ->
  GetRecentEvents env runID limit = Ok events ->
  (Forall (fun e => (8 <= String.length (StoredID e))%nat) events ->
   eventsCommand (Parsed limit) env
   = {| output :=
          Printf "Recent Events (showing %d)\n" [AInt (Z.of_nat (List.length events))]
          :: Printf "===========================\n" []
          :: flat_map eventLines (rev events);
        ending := Returns; closed := true |})
  /\ (ending (eventsCommand (Parsed limit) env) = Panics <->
      Exists (fun e => (String.length (StoredID e) < 8)%nat) events).
Proof.
  intros Hdb Hrun Hne Hev. unfold eventsCommand.
  rewrite Hdb, Hrun, (bool_decide_eq_false_2 _ Hne), Hev.
  destruct (eventsLoop_listing events) as [Hall Hpanic]. split.
  - intros Hlong. by rewrite (Hall Hlong).
  - exact Hpanic.
Qed.

End CliFacts.

(** ** The scenarios, run *)

Module Cases.
Import Scenario.

Lemma decision_is_first_stall_rule_witness :
  evaluatePolicy (proxyWith [auditAll; protectDatabase]) "db.drop_root"
    (Some paramsDrop)
  = Ok (true, Some protectDatabase).
Proof.
  destruct (decision_is_first_stall_rule
              (proxyWith [auditAll; protectDatabase])
              {| Version := "1"; Policies := [auditAll; protectDatabase] |}
              "db.drop_root" (Some paramsDrop)) as [H _];
    [reflexivity | discriminate | exact H].
Defined.

(** C2 as stated fails: [audit-all] is declared first and applies to
    [db.drop_root], yet the decision is [prevent-deletion]. *)
Lemma decision_skips_allow_rule :
  firstApplicable [auditAll; protectDatabase] "db.drop_root" (Some paramsDrop)
  = Some auditAll
  /\ ~ ((shouldStallMethod {| Version := "1"; Policies := [auditAll; protectDatabase] |}
          "db.drop_root" (Some paramsDrop)).2
        = firstApplicable [auditAll; protectDatabase] "db.drop_root"
            (Some paramsDrop)).
Proof. split; [reflexivity|]. vm_compute. discriminate. Qed.

Lemma len_padding n : len (padding n) = Z.of_nat n.
Proof. unfold len. f_equal. induction n as [|n IH]; simpl; congruence. Qed.

(** C1 as stated fails: while the worker is unhealthy a GET request
    passes with no error response at all, and a POST request with an
    empty body is answered for its body, not for the ledger. *)
Lemma unhealthy_request_not_answered_503 :
  let v := unhealthy (proxyWith [auditAll; protectDatabase]) in
  IsHealthy (worker v) = false
  /\ ~ (exists code message,
          issuedError v (interceptRequest v get).1.1 code message)
  /\ ~ issuedError v (interceptRequest v (post "")).1.1 (-32000)
          "Ledger Storage Failure".
Proof.
  intros v. split; [reflexivity|]. split.
  - intros (code & message & json & Hlog & _). vm_compute in Hlog. discriminate.
  - intros (json & Hlog & _). vm_compute in Hlog. discriminate.
Qed.

Lemma unhealthy_request_gated_witness :
  let v := unhealthy (proxyWith [auditAll; protectDatabase]) in
  interceptRequest v (post bodyDrop)
  = (sendErrorResponse v StatusServiceUnavailable (-32000) "Ledger Storage Failure",
     post bodyDrop, Returned)
  /\ interceptRequest v get = (v, get, Returned)
  /\ interceptRequest v (post "")
     = (sendErrorResponse v StatusBadRequest (-32000) "request body is empty",
        post "", Returned)
  /\ ledger (interceptRequest v get).1.1 = [].
Proof.
  intros v.
  destruct (unhealthy_request_gated v (post bodyDrop) eq_refl)
    as (_ & _ & _ & Hgate & _).
  destruct (unhealthy_request_gated v get eq_refl) as (Hledger & _ & _ & _ & Hget & _).
  destruct (unhealthy_request_gated v (post "") eq_refl)
    as (_ & _ & _ & _ & _ & Hbad).
  split; [|split; [|split]].
  - apply (Hgate eq_refl eq_refl reqDrop "T2" "working"). reflexivity.
  - apply Hget. discriminate.
  - apply (Hbad eq_refl eq_refl "request body is empty"). reflexivity.
  - exact Hledger.
Defined.

(** C7 as stated fails: a GET request gets no error response. *)
Lemma get_request_not_rejected :
  let v := proxyWith [auditAll; protectDatabase] in
  HttpMethod get <> "POST"
  /\ ~ (exists code message,
          issuedError v (interceptRequest v get).1.1 code message).
Proof.
  intros v. split; [discriminate|].
  intros (code & message & json & Hlog & _). vm_compute in Hlog. discriminate.
Qed.

Lemma guard_rejections_witness :
  let v := proxyWith [auditAll; protectDatabase] in
  interceptRequest v get = (v, get, Returned)
  /\ exists message out,
       interceptRequest v (post bigBody)
       = (sendErrorResponse v StatusBadRequest (-32000) message, out, Returned).
Proof.
  intros v. split.
  - apply (proj1 (guard_rejections v get)). discriminate.
  - assert (Hbig : 5 * 1024 * 1024 <= len bigBody).
    { unfold bigBody. rewrite len_padding, Z2Nat.id; lia. }
    destruct (proj2 (guard_rejections v (post bigBody)) eq_refl eq_refl Hbig)
      as (message & Heq).
    exists message. eexists. exact Heq.
Defined.

(** The calls of the scenarios are stalled as the records say. *)
Lemma drop_is_stalled :
  (interceptRequest (proxyWith [protectDatabase]) (post bodyDrop)).2
  = Blocked parkedDrop.
Proof. reflexivity. Qed.

Lemma login_is_stalled :
  (interceptRequest (proxyWith [scrubLoginStall]) (post bodyLogin)).2
  = Blocked parkedLogin.
Proof. reflexivity. Qed.

(** C3 as stated fails: after [db.drop_root] is stalled and rejected the
    ledger holds no [rejection] event. *)
Lemma rejection_leaves_no_event :
  let v := run [OpRequest (post bodyDrop); OpResume parkedDrop; OpReject rejectPath]
               (proxyWith [protectDatabase]) in
  (interceptRequest_resume v parkedDrop).2 = Some (post bodyDrop, false)
  /\ ~ (exists e, e ∈ ledger (interceptRequest_resume v parkedDrop).1
                  /\ EventType e = "rejection").
Proof.
  intros v. split; [vm_compute; reflexivity|].
  intros (e & Hin & Hty). vm_compute in Hin.
  apply list_elem_of_singleton in Hin. subst e. discriminate Hty.
Qed.

Lemma rejected_stall_ends_request_witness :
  let v0 := run [OpRequest (post bodyDrop)] (proxyWith [protectDatabase]) in
  let v := run [OpResume parkedDrop; OpReject rejectPath] v0 in
  (interceptRequest_resume v0 parkedDrop).2 = None
  /\ (interceptRequest_resume v parkedDrop).2 = Some (post bodyDrop, false)
  /\ ledger (interceptRequest_resume v parkedDrop).1 = ledger v.
Proof.
  intros v0 v.
  destruct (rejected_stall_ends_request v0 parkedDrop) as (Hparked & _).
  destruct (rejected_stall_ends_request v parkedDrop) as (_ & Hrejected & Hsame).
  assert (Hnothing : nothingArrived v0 (p_chan parkedDrop)).
  { eexists. split; [vm_compute; reflexivity|]. split; [reflexivity|by left]. }
  assert (Harrived : arrived v (p_chan parkedDrop) false).
  { eexists. split; [vm_compute; reflexivity|]. by left. }
  split; [exact (proj1 (Hparked Hnothing))|].
  destruct (Hrejected Harrived) as (cs & Heq).
  assert (Hres : (interceptRequest_resume v parkedDrop).2 = Some (post bodyDrop, false))
    by (by rewrite Heq).
  split; [exact Hres|exact (proj1 (Hsame _ Hres))].
Defined.

Lemma blocked_event_unredacted_witness :
  exists v' e,
    interceptRequest (proxyWith [scrubLoginStall]) (post bodyLogin)
    = (v', post bodyLogin, Blocked parkedLogin)
    /\ ledger v' = [e] /\ EventType e = "blocked"
    /\ Params e = Some paramsLogin.
Proof.
  destruct (interceptRequest (proxyWith [scrubLoginStall]) (post bodyLogin))
    as [[v' out] progress] eqn:Hrun.
  assert (Hout : out = post bodyLogin) by (by vm_compute in Hrun; injection Hrun).
  assert (Hp : progress = Blocked parkedLogin)
    by (by vm_compute in Hrun; injection Hrun).
  subst out progress.
  destruct (blocked_event_unredacted _ _ _ _ _ Hrun)
    as (e & Hl & Hty & _ & _ & _ & _ & Hparams & _).
  exists v', e. repeat split; [exact Hl|exact Hty|exact Hparams].
Defined.

(** C4 as stated fails twice.  A rule of action [allow] applies to
    [auth.login] and lists [password], yet the [tool_call] event holds
    the password as sent.  And when the stall rule's list names a key
    the request does not have, the event has no "[REDACTED]" there. *)
Lemma redaction_misses :
  (let v := proxyWith [scrubLoginAllow] in
   firstApplicable [scrubLoginAllow] "auth.login" (Some paramsLogin)
   = Some scrubLoginAllow
   /\ "password" ∈ Redact scrubLoginAllow
   /\ exists e,
        ledger (interceptRequest v (post bodyLogin)).1.1 = [e]
        /\ EventType e = "tool_call"
        /\ index (Params e) "password" = Some (JString "p"))
  /\ (let v := run [OpRequest (post bodyLoginNoToken);
                     OpResume parkedLoginNoToken; OpApprove approvePath]
                   (proxyWith [scrubLoginStall]) in
      "token" ∈ Redact scrubLoginStall
      /\ exists v' e,
           interceptRequest_resume v parkedLoginNoToken
           = (v', Some (post bodyLoginNoToken, true))
           /\ last (ledger v') = Some e
           /\ EventType e = "tool_call"
           /\ index (Params e) "token" = None).
Proof.
  split.
  - split; [vm_compute; reflexivity|].
    split; [apply list_elem_of_In; simpl; tauto|].
    eexists. split; [vm_compute; reflexivity|].
    split; vm_compute; reflexivity.
  - split; [apply list_elem_of_In; simpl; tauto|].
    do 2 eexists. split; [vm_compute; reflexivity|].
    split; [vm_compute; reflexivity|]. split; vm_compute; reflexivity.
Qed.

Lemma redaction_on_approved_stall_witness :
  let v2 := run [OpRequest (post bodyLogin); OpResume parkedLogin;
                 OpApprove approvePath]
                (proxyWith [scrubLoginStall]) in
  exists v3 e committed,
    interceptRequest_resume v2 parkedLogin = (v3, Some (post bodyLogin, true))
    /\ ledger v3 = (ledger v2 ++ [e])%list
    /\ Params e = Some committed
    /\ committed !! "password" = Some (JString "[REDACTED]")
    /\ committed !! "token" = Some (JString "[REDACTED]")
    /\ committed !! "user" = Some (JString "a").
Proof.
  intros v2.
  destruct (interceptRequest (proxyWith [scrubLoginStall]) (post bodyLogin))
    as [[v1 out] progress] eqn:Hrun.
  assert (Hout : out = post bodyLogin) by (by vm_compute in Hrun; injection Hrun).
  assert (Hp : progress = Blocked parkedLogin)
    by (by vm_compute in Hrun; injection Hrun).
  subst out progress.
  destruct (redaction_on_approved_stall _ _ _ _ _ v2 Hrun)
    as (v3 & e & committed & Hres & Hl & _ & _ & _ & Hparams & Hred & _ & Hkeep & _);
    [discriminate| |].
  { eexists. split; [vm_compute; reflexivity|]. by left. }
  exists v3, e, committed.
  split; [exact Hres|]. split; [exact Hl|]. split; [exact Hparams|].
  split; [|split].
  - apply Hred; [apply list_elem_of_In; simpl; tauto|].
    eexists. vm_compute. reflexivity.
  - apply Hred; [apply list_elem_of_In; simpl; tauto|].
    eexists. vm_compute. reflexivity.
  - rewrite Hkeep; [vm_compute; reflexivity|].
    intros Hin%list_elem_of_In. simpl in Hin.
    destruct Hin as [Hin|[Hin|[]]]; discriminate Hin.
Defined.

(** C5 as stated fails: after a successful rotation the ledger holds no
    [rekey] event. *)
Lemma rekey_leaves_no_event :
  let v := proxyWith [auditAll] in
  status (handleRekey v (Ok ("aa", "bb"))).2 = StatusOK
  /\ ~ (exists e, e ∈ ledger (handleRekey v (Ok ("aa", "bb"))).1
                  /\ EventType e = "rekey").
Proof.
  intros v. split; [reflexivity|].
  intros (e & Hin & _). by apply elem_of_nil in Hin.
Qed.

Lemma rekey_answers_without_event_witness :
  let v := proxyWith [auditAll] in
  (handleRekey v (Ok ("aa", "bb"))).2
  = {| status := 200;
       text := "Key rotated successfully" ++ nl ++ "Old: aa" ++ nl ++ "New: bb" |}
  /\ status (handleRekey v (Err "disk full")).2 = 500.
Proof.
  intros v. split.
  - apply (proj1 (proj2 (rekey_answers_without_event v (Ok ("aa", "bb"))))
             "aa" "bb" eq_refl).
  - apply (proj2 (proj2 (rekey_answers_without_event v (Err "disk full")))
             "disk full" eq_refl).
Defined.

(** C6 on the code: [db.drop_root] is stalled under the id [00000000]
    and its goroutine parks.  Before the stall a signal for the id is
    answered 404.  The first approval is handed to the parked goroutine
    and answered 200; a second one finds the buffer free and is answered
    200 as well; a third one is answered 409.  Once the request has gone
    on, the id is still registered with its channel: a signal for it is
    answered 409 as long as the buffer is full, never 404.  When only one
    approval was sent before the request went on, the next signal is
    answered 200 again. *)
Theorem signal_after_resolution_accepted_again :
  let v0 := proxyWith [protectDatabase] in
  let v1 := run [OpRequest (post bodyDrop); OpResume parkedDrop] v0 in
  let v2 := run [OpApprove approvePath] v1 in
  let v3 := run [OpApprove approvePath] v2 in
  let v4 := run [OpResume parkedDrop] v3 in
  let w3 := run [OpResume parkedDrop] v2 in
  status (handleApprove v0 approvePath).2 = StatusNotFound
  /\ status (handleApprove v1 approvePath).2 = StatusOK
  /\ status (handleApprove v2 approvePath).2 = StatusOK
  /\ status (handleApprove v3 approvePath).2 = StatusConflict
  /\ (interceptRequest_resume v3 parkedDrop).2 = Some (post bodyDrop, true)
  /\ stallSignals v4 !! "00000000" = Some 0%nat
  /\ status (handleApprove v4 approvePath).2 = StatusConflict
  /\ (interceptRequest_resume v2 parkedDrop).2 = Some (post bodyDrop, true)
  /\ stallSignals w3 !! "00000000" = Some 0%nat
  /\ status (handleApprove w3 approvePath).2 = StatusOK
  /\ status (handleReject w3 rejectPath).2 = StatusOK.
Proof.
  intros v0 v1 v2 v3 v4 w3.
  repeat split; vm_compute; reflexivity.
Qed.




Lemma response_left_unchanged_witness :
  let v := proxyWith [auditAll] in
  let html := {| StatusCode := 200; RespBody := NopCloser bodyHtml |} in
  let result := {| StatusCode := 200; RespBody := NopCloser bodyResult |} in
  let broken := {| StatusCode := 200;
                   RespBody := {| data := "<ht"; readErr := Some "unexpected EOF" |} |} in
  interceptResponse v html = (v, html, None)
  /\ interceptResponse (unhealthy v) result
     = (logPrintf LogDroppingResponse (unhealthy v), result, None)
  /\ (interceptResponse v result).1.2 = result
  /\ (interceptResponse v broken).2 = Some "unexpected EOF".
Proof.
  intros v html result broken.
  destruct (response_left_unchanged v html) as (_ & _ & _ & Hhtml & _).
  destruct (response_left_unchanged (unhealthy v) result) as (_ & _ & _ & _ & Hdrop).
  destruct (response_left_unchanged v result) as (Hsame & Hnil & _).
  destruct (response_left_unchanged v broken) as (_ & _ & Hfail & _).
  split; [|split; [|split]].
  - by apply (Hhtml eq_refl "invalid character").
  - by apply (Hdrop eq_refl resultDone).
  - apply Hsame. by apply Hnil.
  - exact (proj1 (Hfail "unexpected EOF" eq_refl)).
Defined.

(** C10 as stated fails: when the read of the body breaks off, the bytes
    read are not put back, the interceptor returns the error, and the
    reverse proxy answers 502 in place of the upstream's response. *)
Lemma unread_response_not_delivered :
  let v := proxyWith [auditAll] in
  let broken := {| StatusCode := 200;
                   RespBody := {| data := "<ht"; readErr := Some "unexpected EOF" |} |} in
  (interceptResponse v broken).2 = Some "unexpected EOF"
  /\ data (RespBody (interceptResponse v broken).1.2) = ""
  /\ (interceptResponse v broken).1.2 <> broken
  /\ (roundTrip (fun _ => broken) v get).2
     = {| StatusCode := StatusBadGateway; RespBody := NopCloser "" |}.
Proof.
  intros v broken.
  split; [reflexivity|]. split; [reflexivity|]. split; [|reflexivity].
  intros Heq. apply (f_equal (fun r => data (RespBody r))) in Heq.
  vm_compute in Heq. discriminate.
Qed.

(** What [sendErrorResponse] does not do: while the worker is unhealthy
    the director returns and the reverse proxy forwards the call; the
    client gets the upstream's answer. *)
Lemma unhealthy_request_still_forwarded :
  let v := unhealthy (proxyWith [auditAll; protectDatabase]) in
  exists answer,
    (serveHTTP upstreamOK v (post bodyDrop) (len bodyDrop)).2 = Answered answer
    /\ StatusCode answer = StatusOK
    /\ ledger (serveHTTP upstreamOK v (post bodyDrop) (len bodyDrop)).1 = [].
Proof. eexists. split; [vm_compute; reflexivity|]. split; vm_compute; reflexivity. Qed.

End Cases.

(** ** Further runs of the scenarios *)

Module Runs.
Import Scenario.

Lemma unstalled_request_recorded_witness :
  exists v' e,
    interceptRequest (proxyWith [auditAll; protectDatabase]) (post bodyRead)
    = (v', post bodyRead, Returned)
    /\ ledger v' = [e] /\ EventType e = "tool_call" /\ EvMethod e = "fs.read"
    /\ Params e = Some paramsRead /\ TaskID e = "T1" /\ ParentID e = ""
    /\ stallSignals v' = ∅.
Proof.
  destruct (unstalled_request_recorded
              (proxyWith [auditAll; protectDatabase]) (post bodyRead)
              {| Version := "1"; Policies := [auditAll; protectDatabase] |}
              reqRead "T1" "working")
    as (v' & e & Hrun & Hl & Hty & Hm & Hp & _ & _ & _ & Ht & _ & Hparent & Hs & _);
    [reflexivity | reflexivity | vm_compute; reflexivity | reflexivity
    | reflexivity | vm_compute; reflexivity |].
  exists v', e. split; [exact Hrun|]. split; [exact Hl|]. split; [exact Hty|].
  split; [exact Hm|]. split; [exact Hp|]. split; [exact Ht|].
  split; [exact Hparent|exact Hs].
Defined.

Lemma stalled_request_registered_witness :
  exists v1 e,
    interceptRequest (proxyWith [auditAll; protectDatabase]) (post bodyDrop)
    = (v1, post bodyDrop, Blocked parkedDrop)
    /\ ledger v1 = [e] /\ EventType e = "blocked"
    /\ PolicyID e = "prevent-deletion"
    /\ stallSignals v1 = {["00000000" := 0%nat]}
    /\ chans v1 = [{| buffer := None; receiver := Away |}].
Proof.
  destruct (stalled_request_registered
              (proxyWith [auditAll; protectDatabase]) (post bodyDrop)
              {| Version := "1"; Policies := [auditAll; protectDatabase] |}
              reqDrop "T2" "working" protectDatabase)
    as (v1 & e & Hrun & Hl & Hty & _ & _ & _ & _ & Hpol & _ & _ & _ & Hs & Hc);
    [reflexivity | reflexivity | vm_compute; reflexivity | reflexivity
    | reflexivity | vm_compute; reflexivity |].
  exists v1, e. split; [exact Hrun|]. split; [exact Hl|]. split; [exact Hty|].
  split; [exact Hpol|]. split; [exact Hs|exact Hc].
Defined.

Lemma stall_then_signal_witness :
  let v1 := (interceptRequest (proxyWith [protectDatabase]) (post bodyDrop)).1.1 in
  let parkedThere := (interceptRequest_resume v1 parkedDrop).1 in
  status (handleReject parkedThere rejectPath).2 = StatusOK
  /\ (interceptRequest_resume (handleReject parkedThere rejectPath).1 parkedDrop).2
     = Some (post bodyDrop, false)
  /\ ledger (interceptRequest_resume (handleReject parkedThere rejectPath).1
               parkedDrop).1
     = ledger v1.
Proof.
  intros v1 parkedThere.
  destruct (stall_then_signal (proxyWith [protectDatabase]) (post bodyDrop) v1
              (post bodyDrop) parkedDrop true false rejectPath)
    as (_ & Hok & _ & Hgo & Hl);
    [reflexivity | discriminate | reflexivity |].
  split; [exact Hok|]. split; [exact Hgo|exact Hl].
Defined.

Lemma first_decision_wins_witness :
  let v := run [OpRequest (post bodyDrop); OpApprove approvePath]
               (proxyWith [protectDatabase]) in
  let later := [OpReject rejectPath; OpStdin parkedDrop; OpRequest (post bodyRead);
                OpReject rejectPath] in
  (interceptRequest_resume (run later v) parkedDrop).2 = Some (post bodyDrop, true).
Proof.
  intros v later.
  refine (proj2 (first_decision_wins v later parkedDrop true _ _)).
  - eexists. split; [vm_compute; reflexivity|]. right. split; reflexivity.
  - repeat constructor.
Defined.

Lemma stdin_line_approves_witness :
  let v1 := (interceptRequest (proxyWith [protectDatabase]) (post bodyDrop)).1.1 in
  exists v3,
    stdinSignal (interceptRequest_resume v1 parkedDrop).1 parkedDrop = Some v3
    /\ ledger v3 = ledger v1
    /\ (interceptRequest_resume v3 parkedDrop).2 = Some (post bodyDrop, true).
Proof.
  intros v1.
  destruct (stdin_line_approves (proxyWith [protectDatabase]) (post bodyDrop) v1
              (post bodyDrop) parkedDrop true)
    as (v3 & Hsend & _ & Hl & Hgo); [reflexivity|].
  exists v3. split; [exact Hsend|]. split; [exact Hl|exact Hgo].
Defined.

Lemma redactParams_composes_witness :
  redactParams (Some paramsLogin) ["password"; "token"]
  = redactParams (Some paramsLogin) ["token"; "password"; "token"].
Proof.
  apply (proj2 (proj2 (redactParams_composes paramsLogin ["password"; "token"]
                         ["token"; "password"; "token"]))).
  intros key. rewrite !elem_of_cons, !elem_of_nil. tauto.
Defined.

Lemma response_recorded_witness :
  exists v' e,
    interceptResponse (proxyWith []) (upstreamOK get) = (v', upstreamOK get, None)
    /\ ledger v' = [e] /\ EventType e = "tool_response"
    /\ Response e = Result resultDone /\ TaskID e = "T1"
    /\ TaskState e = "completed"
    /\ activeTasks v' = {["T1" := "completed"]}.
Proof.
  destruct (response_recorded (proxyWith []) (upstreamOK get) resultDone)
    as (v' & e & Hrun & Hl & Hty & _ & Hresp & _ & _ & Ht & Hs & _ & _ & _ & _ & _
        & _ & Hact);
    [reflexivity | vm_compute; reflexivity | reflexivity |].
  exists v', e. split; [exact Hrun|]. split; [exact Hl|]. split; [exact Hty|].
  split; [exact Hresp|]. split; [exact Ht|]. split; [exact Hs|exact Hact].
Defined.

Lemma stall_registry_never_forgets_witness :
  let v := run [OpRequest (post bodyDrop); OpResume parkedDrop;
                OpApprove approvePath; OpResume parkedDrop]
               (proxyWith [protectDatabase]) in
  let later := [OpRequest (post bodyRead); OpResponse (upstreamOK get)] in
  is_Some (stallSignals (run later v) !! "00000000")
  /\ (status (handleReject (run later v) rejectPath).2 = StatusOK
      \/ status (handleReject (run later v) rejectPath).2 = StatusConflict).
Proof.
  intros v later.
  apply (stall_registry_never_forgets v later "00000000" false rejectPath).
  - discriminate.
  - eexists. vm_compute. reflexivity.
  - reflexivity.
Defined.


End Runs.

Module CliRuns.
Import Cli CliScenario.

Lemma anchors_only_after_valid_chain_witness :
  VerifyCommand (Parsed false) (withAnchors anchorsBad (storeA chainBroken))
  = VerifyCommand (Parsed false) (storeA chainBroken)
  /\ ending (VerifyCommand (Parsed false) (storeA chainBroken)) = Exits 1.
Proof.
  split; [|reflexivity].
  apply CliFacts.anchors_only_after_valid_chain. right.
  intros runID result _ [= <-]. reflexivity.
Defined.

Lemma eventsCommand_listing_witness :
  eventsCommand (Parsed 2) (storeA chainGood)
  = {| output :=
         [Printf "Recent Events (showing %d)\n" [AInt 2];
          Printf "===========================\n" [];
          Printf "[%d] %s | %s | %s\n"
            [AInt 2; AStr "8a9b0c1d"; AStr "blocked"; AStr "db.drop_root"];
          Printf "    BLOCKED\n" [];
          Printf "[%d] %s | %s | %s\n"
            [AInt 3; AStr "0c1d2e3f"; AStr "tool_response"; AStr ""]];
       ending := Returns; closed := true |}.
Proof.
  apply (proj1 (CliFacts.eventsCommand_listing 2 (storeA chainGood) runA
                  (take 2 eventsA) eq_refl eq_refl ltac:(discriminate) eq_refl)).
  repeat constructor.
Defined.

Lemma statusCommand_ending_witness :
  ending (statusCommand (storeA chainGood)) = Returns
  /\ closed (statusCommand (storeA chainGood)) = true.
Proof.
  destruct (CliFacts.statusCommand_ending (storeA chainGood) runA "agent-7"
              genesisA keyA eq_refl eq_refl ltac:(discriminate) eq_refl)
    as (Hret & _ & Hclosed & _).
  split; [|exact Hclosed].
  apply Hret. unfold runA, genesisA, keyA. simpl. lia.
Defined.

Lemma main_without_store_witness :
  main ["ael"; "approve"; "8a9b0c1d"] (Parsed 10) (storeA chainGood)
  = main ["ael"; "approve"; "8a9b0c1d"] (Parsed 10) (storeA chainBroken)
  /\ ending (main ["ael"; "approve"; "8a9b0c1d"] (Parsed 10) (storeA chainGood))
     = Returns.
Proof.
  destruct (CliFacts.main_without_store ["ael"; "approve"; "8a9b0c1d"] (Parsed 10)
              (storeA chainGood) (storeA chainBroken)
              ltac:(discriminate) ltac:(discriminate) ltac:(discriminate))
    as (Hsame & Hret & _).
  split; [exact Hsame|].
  apply Hret. split; [by left|by eexists].
Defined.

End CliRuns.
